(** * jenkins_mcp.py: the Jenkins API client and the MCP dispatcher

    A shallow embedding of [src/jenkins_mcp.py].

    - Python values that come out of [response.json()] and out of the tool
      arguments are values of [pyval]; a [dict] is an association list in
      insertion order.
    - A Python [str] is a [string], that is the UTF-8 bytes of the text.
      Substring tests, [split] and [join] on the bytes agree with Python on
      the code points.  [str.lower], which lowers the cased characters of
      all of Unicode, is a parameter of the program, [str_lower].
    - An [await]ed call of the API client is a computation in the monad [M]:
      it reads the upstream server (a function from requests to outcomes),
      appends every request it issues to a log, and either returns a value
      or raises an exception ([exn] stands for the subclasses of
      [Exception]).
    - JSON numbers are integers, which is what the Jenkins API sends for
      every field that the program reads.
*)

From Stdlib Require Import String Ascii List ZArith Lia Bool DecimalString.
Import ListNotations.

Local Open Scope string_scope.
Local Open Scope Z_scope.

(** ** Strings *)

Module Str.

(** [needle in hay] *)
Fixpoint contains (needle hay : string) : bool :=
  String.prefix needle hay ||
  match hay with
  | EmptyString => false
  | String _ t => contains needle t
  end.

Definition newline : ascii := ascii_of_nat 10.
Definition nl : string := String newline EmptyString.

(** [s.split(sep)] for a one-character separator *)
Fixpoint split (sep : ascii) (s : string) : list string :=
  match s with
  | EmptyString => [EmptyString]
  | String c t =>
      if Ascii.eqb c sep then EmptyString :: split sep t
      else match split sep t with
           | h :: r => String c h :: r
           | [] => [String c EmptyString]
           end
  end.

(** [sep.join(l)] *)
Definition join (sep : string) (l : list string) : string := String.concat sep l.

(** [s.rstrip('/')] *)
Fixpoint rstrip_slash (s : string) : string :=
  match s with
  | EmptyString => EmptyString
  | String c t =>
      match rstrip_slash t with
      | EmptyString => if Ascii.eqb c "/"%char then EmptyString else String c EmptyString
      | r => String c r
      end
  end.

(** [str(n)] for an [int] *)
Definition of_Z (z : Z) : string := NilZero.string_of_int (Z.to_int z).

Definition of_nat (n : nat) : string := of_Z (Z.of_nat n).

End Str.

(** [l[start:]] for a list and a Python [int] *)
Definition py_slice_from {A : Type} (start : Z) (l : list A) : list A :=
  let len := Z.of_nat (length l) in
  let s := if start <? 0 then Z.max (start + len) 0 else Z.min start len in
  skipn (Z.to_nat s) l.

(** ** Python values *)

#[warnings="-register-all"]
Inductive pyval : Type :=
| PNone : pyval
| PBool : bool -> pyval
| PInt : Z -> pyval
| PStr : string -> pyval
| PList : list pyval -> pyval
| PDict : list (string * pyval) -> pyval.

Definition dict := list (string * pyval).

Fixpoint dict_lookup (d : dict) (k : string) : option pyval :=
  match d with
  | [] => None
  | (k', v) :: r => if String.eqb k' k then Some v else dict_lookup r k
  end.

(** [d.get(k, default)] on a [dict] *)
Definition dict_get (d : dict) (k : string) (default : pyval) : pyval :=
  match dict_lookup d k with
  | Some v => v
  | None => default
  end.

(** [bool(v)] *)
Definition truthy (v : pyval) : bool :=
  match v with
  | PNone => false
  | PBool b => b
  | PInt z => negb (z =? 0)
  | PStr s => negb (String.eqb s "")
  | PList l => match l with [] => false | _ => true end
  | PDict d => match d with [] => false | _ => true end
  end.

(** [v == s] for a [str] literal [s] *)
Definition eq_str (v : pyval) (s : string) : bool :=
  match v with
  | PStr t => String.eqb t s
  | _ => false
  end.

(** [type(v).__name__] *)
Definition type_name (v : pyval) : string :=
  match v with
  | PNone => "NoneType"
  | PBool _ => "bool"
  | PInt _ => "int"
  | PStr _ => "str"
  | PList _ => "list"
  | PDict _ => "dict"
  end.

(** ** Exceptions *)

Inductive exn : Type :=
| ConnectTimeout (msg : string)          (* httpx.ConnectTimeout *)
| TransportError (msg : string)          (* any other failure of the HTTP transport *)
| HTTPStatusError (status : Z) (msg : string)  (* raised by raise_for_status *)
| JSONDecodeError (msg : string)
| AttributeError (msg : string)
| TypeError (msg : string)
| ValueError (msg : string)
| OtherError (msg : string)              (* any other subclass of Exception *)
| PlainException (msg : string).         (* Exception(msg) *)

(** [str(e)] *)
Definition str_exn (e : exn) : string :=
  match e with
  | ConnectTimeout m | TransportError m | HTTPStatusError _ m | JSONDecodeError m
  | AttributeError m | TypeError m | ValueError m | OtherError m | PlainException m => m
  end.

Inductive result (A : Type) : Type :=
| Ok : A -> result A
| Raise : exn -> result A.
Arguments Ok {A} _.
Arguments Raise {A} _.

Definition no_attribute (v : pyval) (attr : string) : exn :=
  AttributeError ("'" ++ type_name v ++ "' object has no attribute '" ++ attr ++ "'").

(** [v.get(k, default)]: only a [dict] has the method *)
Definition py_get (v : pyval) (k : string) (default : pyval) : result pyval :=
  match v with
  | PDict d => Ok (dict_get d k default)
  | _ => Raise (no_attribute v "get")
  end.

Fixpoint chars (s : string) : list pyval :=
  match s with
  | EmptyString => []
  | String c t => PStr (String c EmptyString) :: chars t
  end.

(** the elements that [for x in v] goes through; a [dict] gives its keys and
    a [str] its characters (here its bytes, which only matters for their
    number) *)
Definition py_iter (v : pyval) : result (list pyval) :=
  match v with
  | PList l => Ok l
  | PDict d => Ok (map (fun kv => PStr (fst kv)) d)
  | PStr s => Ok (chars s)
  | _ => Raise (TypeError ("'" ++ type_name v ++ "' object is not iterable"))
  end.

Definition int_of_bool (b : bool) : Z := if b then 1 else 0.

(** [v > 0] *)
Definition py_gt0 (v : pyval) : result bool :=
  match v with
  | PInt z => Ok (0 <? z)
  | PBool b => Ok (0 <? int_of_bool b)
  | _ => Raise (TypeError ("'>' not supported between instances of '" ++ type_name v ++ "' and 'int'"))
  end.

(** [v // k] for a positive [int] literal [k] *)
Definition py_floordiv (v : pyval) (k : Z) : result Z :=
  match v with
  | PInt z => Ok (z / k)
  | PBool b => Ok (int_of_bool b / k)
  | _ => Raise (TypeError ("unsupported operand type(s) for //: '" ++ type_name v ++ "' and 'int'"))
  end.

(** [-v] *)
Definition py_neg (v : pyval) : result Z :=
  match v with
  | PInt z => Ok (- z)
  | PBool b => Ok (- int_of_bool b)
  | _ => Raise (TypeError ("bad operand type for unary -: '" ++ type_name v ++ "'"))
  end.

Definition unhashable (v : pyval) : exn :=
  TypeError ("unhashable type: '" ++ type_name v ++ "'").

(** [table.get(v, default)] for a literal [dict] whose keys are [str]
    literals and, when [none] is given, [None] *)
Fixpoint assoc_str (table : list (string * string)) (k : string) : option string :=
  match table with
  | [] => None
  | (k', e) :: r => if String.eqb k' k then Some e else assoc_str r k
  end.

Definition table_get (table : list (string * string)) (none : option string)
    (v : pyval) (default : string) : result string :=
  match v with
  | PStr s => Ok (match assoc_str table s with Some e => e | None => default end)
  | PNone => Ok (match none with Some e => e | None => default end)
  | PBool _ | PInt _ => Ok default
  | PList _ | PDict _ => Raise (unhashable v)
  end.

(** ** json.dumps(v, indent=2, ensure_ascii=...) *)

Module Json.

Definition dquote : string := String (ascii_of_nat 34) EmptyString.
Definition backslash : string := String (ascii_of_nat 92) EmptyString.

Definition hex_digit (n : N) : string :=
  String (ascii_of_N (if (n <? 10)%N then 48 + n else 87 + n)%N) EmptyString.

(** ['\\u{0:04x}'.format(n)] *)
Definition u_escape (n : N) : string :=
  backslash ++ "u" ++ hex_digit (N.shiftr n 12 mod 16) ++ hex_digit (N.shiftr n 8 mod 16)
            ++ hex_digit (N.shiftr n 4 mod 16) ++ hex_digit (n mod 16).

(** [ESCAPE_DCT]: what both encoders do to an ASCII character *)
Definition escape_char (c : ascii) : string :=
  let n := N_of_ascii c in
  if (n =? 34)%N then backslash ++ dquote
  else if (n =? 92)%N then backslash ++ backslash
  else if (n =? 8)%N then backslash ++ "b"
  else if (n =? 12)%N then backslash ++ "f"
  else if (n =? 10)%N then backslash ++ "n"
  else if (n =? 13)%N then backslash ++ "r"
  else if (n =? 9)%N then backslash ++ "t"
  else if (n <? 32)%N then u_escape n
  else String c EmptyString.

(** [ensure_ascii=False]: the bytes of every other character are copied *)
Fixpoint escape (s : string) : string :=
  match s with
  | EmptyString => EmptyString
  | String c t => escape_char c ++ escape t
  end.

(** a code point as [\uXXXX], above the basic plane as a surrogate pair *)
Definition u_code_point (cp : N) : string :=
  if (cp <? 65536)%N then u_escape cp
  else let v := (cp - 65536)%N in
       u_escape (N.lor 55296 (N.shiftr v 10)) ++ u_escape (N.lor 56320 (N.land v 1023)).

Definition cont (c : ascii) : N := N.land (N_of_ascii c) 63.

(** [ensure_ascii=True]: every character outside [' '..'~'] is escaped; the
    bytes are decoded as UTF-8 (a sequence cut short, which a [str] never
    holds, is dropped) *)
Fixpoint escape_ascii (s : string) : string :=
  match s with
  | EmptyString => EmptyString
  | String c t =>
      let n := N_of_ascii c in
      if (n <? 127)%N then escape_char c ++ escape_ascii t
      else if (n <? 128)%N then u_escape n ++ escape_ascii t
      else match t with
        | EmptyString => EmptyString
        | String c1 t1 =>
            if (n <? 224)%N
            then u_code_point (N.shiftl (N.land n 31) 6 + cont c1) ++ escape_ascii t1
            else match t1 with
              | EmptyString => EmptyString
              | String c2 t2 =>
                  if (n <? 240)%N
                  then u_code_point (N.shiftl (N.land n 15) 12 + N.shiftl (cont c1) 6 + cont c2)
                         ++ escape_ascii t2
                  else match t2 with
                    | EmptyString => EmptyString
                    | String c3 t3 =>
                        u_code_point (N.shiftl (N.land n 7) 18 + N.shiftl (cont c1) 12
                                      + N.shiftl (cont c2) 6 + cont c3)
                          ++ escape_ascii t3
                    end
              end
        end
  end.

Definition encode_str (ensure_ascii : bool) (s : string) : string :=
  dquote ++ (if ensure_ascii then escape_ascii s else escape s) ++ dquote.

Fixpoint spaces (n : nat) : string :=
  match n with
  | O => EmptyString
  | S k => String " "%char (spaces k)
  end.

(** a line break and the indentation of [level], two spaces a level *)
Definition newline_indent (level : nat) : string := Str.nl ++ spaces (2 * level).

Fixpoint dumps_at (ensure_ascii : bool) (level : nat) (v : pyval) {struct v} : string :=
  match v with
  | PNone => "null"
  | PBool true => "true"
  | PBool false => "false"
  | PInt z => Str.of_Z z
  | PStr s => encode_str ensure_ascii s
  | PList [] => "[]"
  | PList l =>
      "[" ++ newline_indent (S level)
      ++ (fix items (l : list pyval) : string :=
            match l with
            | [] => EmptyString
            | x :: r =>
                dumps_at ensure_ascii (S level) x
                ++ match r with
                   | [] => EmptyString
                   | _ => "," ++ newline_indent (S level) ++ items r
                   end
            end) l
      ++ newline_indent level ++ "]"
  | PDict [] => "{}"
  | PDict d =>
      "{" ++ newline_indent (S level)
      ++ (fix items (d : list (string * pyval)) : string :=
            match d with
            | [] => EmptyString
            | (k, x) :: r =>
                encode_str ensure_ascii k ++ ": " ++ dumps_at ensure_ascii (S level) x
                ++ match r with
                   | [] => EmptyString
                   | _ => "," ++ newline_indent (S level) ++ items r
                   end
            end) d
      ++ newline_indent level ++ "}"
  end.

Definition dumps (ensure_ascii : bool) (v : pyval) : string := dumps_at ensure_ascii 0 v.

End Json.

(** ** base64.b64encode and str.encode('ascii') *)

Module Base64.

(** six bits, the most significant first *)
Definition sextet : Type := (bool * bool * bool * bool * bool * bool)%type.

Definition bit (b : bool) : nat := if b then 1 else 0.

Definition index (x : sextet) : nat :=
  let '(b5, b4, b3, b2, b1, b0) := x in
  (32 * bit b5 + 16 * bit b4 + 8 * bit b3 + 4 * bit b2 + 2 * bit b1 + bit b0)%nat.

Definition alphabet : string :=
  "ABCDEFGHIJKLMNOPQRSTUVWXYZabcdefghijklmnopqrstuvwxyz0123456789+/".

Definition pad : ascii := "="%char.

Definition char_of (x : sextet) : ascii :=
  match String.get (index x) alphabet with
  | Some c => c
  | None => pad
  end.

(** the groups of six bits of one, two and three bytes; the bits of
    [Ascii] are given from the least significant *)
Definition first_of (a : ascii) : sextet :=
  let 'Ascii _ _ a2 a3 a4 a5 a6 a7 := a in (a7, a6, a5, a4, a3, a2).

Definition second_of (a b : ascii) : sextet :=
  let 'Ascii a0 a1 _ _ _ _ _ _ := a in
  let 'Ascii _ _ _ _ b4 b5 b6 b7 := b in (a1, a0, b7, b6, b5, b4).

Definition third_of (b c : ascii) : sextet :=
  let 'Ascii b0 b1 b2 b3 _ _ _ _ := b in
  let 'Ascii _ _ _ _ _ _ c6 c7 := c in (b3, b2, b1, b0, c7, c6).

Definition fourth_of (c : ascii) : sextet :=
  let 'Ascii c0 c1 c2 c3 c4 c5 _ _ := c in (c5, c4, c3, c2, c1, c0).

Definition zero : ascii := Ascii.zero.

(** [base64.b64encode(s)]: three bytes give four characters, and a last
    group of one or two bytes is padded with [=] *)
Fixpoint b64encode (s : string) : string :=
  match s with
  | EmptyString => EmptyString
  | String a EmptyString =>
      String (char_of (first_of a)) (String (char_of (second_of a zero))
        (String pad (String pad EmptyString)))
  | String a (String b EmptyString) =>
      String (char_of (first_of a)) (String (char_of (second_of a b))
        (String (char_of (third_of b zero)) (String pad EmptyString)))
  | String a (String b (String c t)) =>
      String (char_of (first_of a)) (String (char_of (second_of a b))
        (String (char_of (third_of b c)) (String (char_of (fourth_of c)) (b64encode t))))
  end.

Fixpoint is_ascii (s : string) : bool :=
  match s with
  | EmptyString => true
  | String c t => (N_of_ascii c <? 128)%N && is_ascii t
  end.

(** [s.encode('ascii')]; the message of the [UnicodeEncodeError], which
    names the character and its position, is cut short *)
Definition encode_ascii (s : string) : result string :=
  if is_ascii s then Ok s
  else Raise (ValueError "'ascii' codec can't encode character").

End Base64.

(** ** Computations that may raise *)

Definition rbind {A B : Type} (r : result A) (f : A -> result B) : result B :=
  match r with
  | Ok a => f a
  | Raise e => Raise e
  end.

Declare Scope result_scope.
Delimit Scope result_scope with result.
Notation "x <- r ;; k" := (rbind r (fun x => k))
  (at level 61, r at next level, right associativity) : result_scope.

(** the body of a [for] loop that appends one element an iteration *)
Fixpoint map_result {A B : Type} (f : A -> result B) (l : list A) : result (list B) :=
  match l with
  | [] => Ok []
  | x :: r => (y <- f x ;; ys <- map_result f r ;; Ok (y :: ys))%result
  end.

(** [[x for x in l if cond(x)]] *)
Fixpoint filter_result {A : Type} (cond : A -> result bool) (l : list A) : result (list A) :=
  match l with
  | [] => Ok []
  | x :: r =>
      (b <- cond x ;; ys <- filter_result cond r ;; Ok (if b then x :: ys else ys))%result
  end.

(** the body of a [for] loop that does [result += ...] *)
Fixpoint concat_result {A : Type} (f : A -> result string) (l : list A) : result string :=
  match l with
  | [] => Ok EmptyString
  | x :: r => (y <- f x ;; ys <- concat_result f r ;; Ok (y ++ ys))%result
  end.

(** ** The HTTP client *)

Inductive http_method : Type := GET | POST.

(** one call of [client.get] or [client.post]; [req_data] is the [data=]
    argument.  Every call is given [self.headers], which the model leaves
    out. *)
Record request : Type := mk_request {
  req_method : http_method;
  req_url : string;
  req_data : option pyval
}.

Module httpx.

(** [json] is what [response.json()] does: the parsed body, or the
    exception of the parser *)
Record Response : Type := mk_Response {
  status_code : Z;
  text : string;
  json : result pyval
}.

End httpx.

(** what a call of the client comes back with *)
Inductive outcome : Type :=
| Responded (r : httpx.Response)
| Failed (e : exn).

(** A computation gets the log of the calls made so far and returns the
    extended log with its result. *)
Definition M (A : Type) : Type := list request -> list request * result A.

Definition ret {A : Type} (a : A) : M A := fun log => (log, Ok a).

Definition raise {A : Type} (e : exn) : M A := fun log => (log, Raise e).

Definition lift {A : Type} (r : result A) : M A := fun log => (log, r).

Definition bind {A B : Type} (m : M A) (f : A -> M B) : M B :=
  fun log =>
    match m log with
    | (log', Ok a) => f a log'
    | (log', Raise e) => (log', Raise e)
    end.

(** [try: m  except Exception as e: handler(e)] *)
Definition try_except {A : Type} (m : M A) (handler : exn -> M A) : M A :=
  fun log =>
    match m log with
    | (log', Ok a) => (log', Ok a)
    | (log', Raise e) => handler e log'
    end.

Declare Scope monad_scope.
Delimit Scope monad_scope with monad.
Notation "x <- m ;; k" := (bind m (fun x => k))
  (at level 61, m at next level, right associativity) : monad_scope.

Module JenkinsJob.
Record t : Type := mk {
  name : pyval;
  url : pyval;
  color : pyval;
  buildable : pyval;
  last_build : pyval
}.
End JenkinsJob.

Module JenkinsBuild.
Record t : Type := mk {
  number : pyval;
  url : pyval;
  result : pyval;
  building : pyval;
  duration : pyval;
  timestamp : pyval
}.
End JenkinsBuild.

Module types.
Record TextContent : Type := mk_TextContent {
  type : string;
  text : string
}.
Record Tool : Type := mk_Tool {
  name : string;
  description : string;
  inputSchema : pyval
}.
End types.

Module Resource.
Record t : Type := mk {
  uri : string;
  name : string;
  description : string;
  mimeType : string
}.
End Resource.

(** ** class JenkinsManager *)

Record JenkinsManager : Type := mk_JenkinsManager {
  jenkins_url : string;
  username : string;
  api_token : string
}.

(** [__init__], without the Authorization header *)
Definition JenkinsManager_init (jenkins_url username api_token : string) : JenkinsManager :=
  mk_JenkinsManager (Str.rstrip_slash jenkins_url) username api_token.

(** the [headers] that [__init__] builds *)
Definition JenkinsManager_headers (username api_token : string)
    : result (list (string * string)) :=
  (let auth_string := username ++ ":" ++ api_token in
   auth_bytes <- Base64.encode_ascii auth_string ;;
   let auth_b64 := Base64.b64encode auth_bytes in
   Ok [("Authorization", "Basic " ++ auth_b64);
       ("Content-Type", "application/json")])%result.

Section Program.

(** the server and the transport, as seen through [client.get] and
    [client.post] *)
Variable upstream : request -> outcome.

(** [s.lower()] of the interpreter, which lowers the cased characters of
    Unicode *)
Variable str_lower : string -> string.

(** [repr] of a [list] and of a [dict] *)
Variable py_repr : pyval -> string.

(** the message of the [HTTPStatusError] that [raise_for_status] builds from
    the status and the URL *)
Variable status_error_message : Z -> string -> string.

(** [datetime.fromtimestamp(ms / 1000).strftime('%Y-%m-%d %H:%M')] in the
    local time zone; it raises outside the range of the platform *)
Variable strftime_local : Z -> result string.

(** the environment variable *)
Variable JENKINS_URL : string.
Variable JENKINS_USERNAME : string.
Variable JENKINS_API_TOKEN : string.

(** [str(v)], which is what an f-string does to [{v}] *)
Definition py_str (v : pyval) : string :=
  match v with
  | PNone => "None"
  | PBool true => "True"
  | PBool false => "False"
  | PInt z => Str.of_Z z
  | PStr s => s
  | PList _ | PDict _ => py_repr v
  end.

(** [v.lower()]: only a [str] has the method *)
Definition py_lower (v : pyval) : result string :=
  match v with
  | PStr s => Ok (str_lower s)
  | _ => Raise (no_attribute v "lower")
  end.

Definition send (req : request) : M httpx.Response :=
  fun log =>
    ((log ++ [req])%list,
     match upstream req with
     | Responded r => Ok r
     | Failed e => Raise e
     end).

Definition client_get (url : string) : M httpx.Response :=
  send (mk_request GET url None).

Definition client_post (url : string) (data : option pyval) : M httpx.Response :=
  send (mk_request POST url data).

(** httpx raises for every status outside 200..299 *)
Definition raise_for_status (url : string) (r : httpx.Response) : M unit :=
  if (200 <=? httpx.status_code r) && (httpx.status_code r <=? 299)
  then ret tt
  else raise (HTTPStatusError (httpx.status_code r)
                              (status_error_message (httpx.status_code r) url)).

Local Open Scope monad_scope.

Definition test_connection (self : JenkinsManager) : M pyval :=
  try_except
    (let url := jenkins_url self ++ "/api/json" in
     response <- client_get url ;;
     _ <- raise_for_status url response ;;
     lift (httpx.json response))
    (fun e =>
       match e with
       | ConnectTimeout _ =>
           raise (PlainException "Timeout de conexión - ¿Estás conectado a la VPN?")
       | HTTPStatusError status _ =>
           if status =? 401
           then raise (PlainException "Error de autenticación - Verifica usuario y token")
           else if status =? 403
           then raise (PlainException "Sin permisos - Verifica los permisos del usuario")
           else raise (PlainException ("Error HTTP " ++ Str.of_Z status))
       | _ => raise e
       end).

Definition job_of_data (job_data : pyval) : result JenkinsJob.t :=
  (name <- py_get job_data "name" (PStr "") ;;
   url <- py_get job_data "url" (PStr "") ;;
   color <- py_get job_data "color" (PStr "") ;;
   buildable <- py_get job_data "buildable" (PBool false) ;;
   last_build <- py_get job_data "lastBuild" PNone ;;
   Ok (JenkinsJob.mk name url color buildable last_build))%result.

Definition get_jobs (self : JenkinsManager) : M (list JenkinsJob.t) :=
  let url := jenkins_url self
             ++ "/api/json?tree=jobs[name,url,color,buildable,lastBuild[number,url,result,building]]" in
  response <- client_get url ;;
  _ <- raise_for_status url response ;;
  data <- lift (httpx.json response) ;;
  jobs_data <- lift (py_get data "jobs" (PList [])) ;;
  items <- lift (py_iter jobs_data) ;;
  lift (map_result job_of_data items).

Definition get_job_info (self : JenkinsManager) (job_name : pyval) : M pyval :=
  let url := jenkins_url self ++ "/job/" ++ py_str job_name ++ "/api/json" in
  response <- client_get url ;;
  _ <- raise_for_status url response ;;
  lift (httpx.json response).

Definition build_of_data (build_data : pyval) : result JenkinsBuild.t :=
  (number <- py_get build_data "number" (PInt 0) ;;
   url <- py_get build_data "url" (PStr "") ;;
   result <- py_get build_data "result" (PStr "UNKNOWN") ;;
   building <- py_get build_data "building" (PBool false) ;;
   duration <- py_get build_data "duration" (PInt 0) ;;
   timestamp <- py_get build_data "timestamp" (PInt 0) ;;
   Ok (JenkinsBuild.mk number url result building duration timestamp))%result.

Definition get_job_builds (self : JenkinsManager) (job_name limit : pyval)
    : M (list JenkinsBuild.t) :=
  let url := jenkins_url self ++ "/job/" ++ py_str job_name
             ++ "/api/json?tree=builds[number,url,result,building,duration,timestamp]{0,"
             ++ py_str limit ++ "}" in
  response <- client_get url ;;
  _ <- raise_for_status url response ;;
  data <- lift (httpx.json response) ;;
  builds_data <- lift (py_get data "builds" (PList [])) ;;
  items <- lift (py_iter builds_data) ;;
  lift (map_result build_of_data items).

Definition get_build_info (self : JenkinsManager) (job_name build_number : pyval) : M pyval :=
  let url := jenkins_url self ++ "/job/" ++ py_str job_name ++ "/" ++ py_str build_number
             ++ "/api/json" in
  response <- client_get url ;;
  _ <- raise_for_status url response ;;
  lift (httpx.json response).

Definition get_build_console (self : JenkinsManager) (job_name build_number lines : pyval)
    : M string :=
  let url := jenkins_url self ++ "/job/" ++ py_str job_name ++ "/" ++ py_str build_number
             ++ "/consoleText" in
  response <- client_get url ;;
  _ <- raise_for_status url response ;;
  let console_output := httpx.text response in
  let lines_list := Str.split Str.newline console_output in
  start <- lift (py_neg lines) ;;
  ret (Str.join Str.nl (py_slice_from start lines_list)).

Definition trigger_build (self : JenkinsManager) (job_name parameters : pyval) : M bool :=
  response <-
    (if truthy parameters
     then client_post (jenkins_url self ++ "/job/" ++ py_str job_name ++ "/buildWithParameters")
                      (Some parameters)
     else client_post (jenkins_url self ++ "/job/" ++ py_str job_name ++ "/build") None) ;;
  ret ((httpx.status_code response =? 200) || (httpx.status_code response =? 201)).

Definition get_queue_info (self : JenkinsManager) : M pyval :=
  let url := jenkins_url self ++ "/queue/api/json" in
  response <- client_get url ;;
  _ <- raise_for_status url response ;;
  data <- lift (httpx.json response) ;;
  lift (py_get data "items" (PList [])).

Definition jenkins_manager : JenkinsManager :=
  JenkinsManager_init JENKINS_URL JENKINS_USERNAME JENKINS_API_TOKEN.

Definition nl : string := Str.nl.

Definition yes_no (v : pyval) : string := if truthy v then "Sí" else "No".

Definition text_content (s : string) : list types.TextContent :=
  [types.mk_TextContent "text" s].

(** *** list_resources *)

Definition list_resources : list Resource.t :=
  [Resource.mk "jenkins://jobs" "Jobs de Jenkins" "Lista de todos los jobs"
               "application/json";
   Resource.mk "jenkins://queue" "Cola de Builds" "Builds en cola de ejecución"
               "application/json";
   Resource.mk "jenkins://failed-jobs" "Jobs Fallidos" "Jobs con último build fallido"
               "application/json"].

(** *** read_resource *)

Definition job_as_dict (job : JenkinsJob.t) : pyval :=
  PDict [("name", JenkinsJob.name job);
         ("url", JenkinsJob.url job);
         ("color", JenkinsJob.color job);
         ("buildable", JenkinsJob.buildable job);
         ("last_build", JenkinsJob.last_build job)].

Definition failed_job_as_dict (job : JenkinsJob.t) : pyval :=
  PDict [("name", JenkinsJob.name job);
         ("color", JenkinsJob.color job);
         ("last_build", JenkinsJob.last_build job)].

(** the condition of the comprehension in the [jenkins://failed-jobs]
    branch *)
Definition resource_failed_cond (job : JenkinsJob.t) : result bool :=
  if eq_str (JenkinsJob.color job) "red" || eq_str (JenkinsJob.color job) "red_anime"
  then Ok true
  else if truthy (JenkinsJob.last_build job)
  then (r <- py_get (JenkinsJob.last_build job) "result" PNone ;; Ok (eq_str r "FAILURE"))%result
  else Ok false.

(** the jobs that the comprehension of the resource goes on to render *)
Definition resource_failed_jobs (jobs : list JenkinsJob.t) : result (list JenkinsJob.t) :=
  filter_result resource_failed_cond jobs.

Definition read_resource_body (uri : string) : M string :=
  if String.eqb uri "jenkins://jobs" then
    jobs <- get_jobs jenkins_manager ;;
    let jobs_data := map job_as_dict jobs in
    ret (Json.dumps false (PList jobs_data))
  else if String.eqb uri "jenkins://queue" then
    queue_items <- get_queue_info jenkins_manager ;;
    ret (Json.dumps false queue_items)
  else if String.eqb uri "jenkins://failed-jobs" then
    jobs <- get_jobs jenkins_manager ;;
    selected <- lift (resource_failed_jobs jobs) ;;
    let failed_jobs := map failed_job_as_dict selected in
    ret (Json.dumps false (PList failed_jobs))
  else
    raise (ValueError ("Recurso no encontrado: " ++ uri)).

Definition read_resource_handler (e : exn) : M string :=
  ret (Json.dumps true (PDict [("error", PStr (str_exn e))])).

Definition read_resource (uri : string) : M string :=
  try_except (read_resource_body uri) read_resource_handler.

(** *** list_tools *)

Definition property (name type description : string) : string * pyval :=
  (name, PDict [("type", PStr type); ("description", PStr description)]).

Definition schema (properties : list (string * pyval)) (required : list string) : pyval :=
  PDict ([("type", PStr "object"); ("properties", PDict properties)]
         ++ match required with
            | [] => []
            | _ => [("required", PList (map PStr required))]
            end)%list.

Definition list_tools : list types.Tool :=
  [types.mk_Tool "get_jobs" "Obtener lista de todos los jobs"
     (schema [property "filter" "string" "Filtrar jobs por nombre (opcional)"] []);
   types.mk_Tool "get_job_info" "Obtener información detallada de un job"
     (schema [property "job_name" "string" "Nombre del job"] ["job_name"]);
   types.mk_Tool "get_job_builds" "Obtener builds recientes de un job"
     (schema [property "job_name" "string" "Nombre del job";
              property "limit" "integer" "Número de builds a mostrar (default: 10)"]
             ["job_name"]);
   types.mk_Tool "get_build_console" "Obtener logs de consola de un build"
     (schema [property "job_name" "string" "Nombre del job";
              property "build_number" "integer" "Número del build";
              property "lines" "integer" "Número de líneas a mostrar (default: 50)"]
             ["job_name"; "build_number"]);
   types.mk_Tool "trigger_build" "Ejecutar un build de un job"
     (schema [property "job_name" "string" "Nombre del job a ejecutar";
              property "parameters" "object" "Parámetros del build (opcional)"]
             ["job_name"]);
   types.mk_Tool "get_failed_jobs" "Obtener jobs con builds fallidos" (schema [] []);
   types.mk_Tool "test_connection" "Probar conexión con Jenkins" (schema [] [])].

(** *** call_tool *)

Definition job_status_emoji : list (string * string) :=
  [("blue", "✅"); ("blue_anime", "🔄"); ("red", "❌"); ("red_anime", "🔄❌");
   ("yellow", "⚠️"); ("grey", "⚪"); ("disabled", "⏸️")].

Definition build_status_emoji : list (string * string) :=
  [("SUCCESS", "✅"); ("FAILURE", "❌"); ("UNSTABLE", "⚠️"); ("ABORTED", "⏹️")].

(** the jobs that the [get_jobs] tool keeps *)
Definition get_jobs_filter (filter_name : string) (jobs : list JenkinsJob.t)
    : result (list JenkinsJob.t) :=
  if negb (String.eqb filter_name "")
  then filter_result
         (fun job => (lowered <- py_lower (JenkinsJob.name job) ;;
                      Ok (Str.contains filter_name lowered))%result)
         jobs
  else Ok jobs.

Definition render_job (job : JenkinsJob.t) : result string :=
  (status_emoji <- table_get job_status_emoji None (JenkinsJob.color job) "❓" ;;
   let head :=
     status_emoji ++ " **" ++ py_str (JenkinsJob.name job) ++ "**" ++ nl
     ++ "   📊 Estado: " ++ py_str (JenkinsJob.color job) ++ nl
     ++ "   🔧 Ejecutable: " ++ yes_no (JenkinsJob.buildable job) ++ nl in
   last <-
     (if truthy (JenkinsJob.last_build job)
      then number <- py_get (JenkinsJob.last_build job) "number" (PStr "N/A") ;;
           result <- py_get (JenkinsJob.last_build job) "result" (PStr "N/A") ;;
           Ok ("   🔢 Último build: #" ++ py_str number ++ nl
               ++ "   📊 Resultado: " ++ py_str result ++ nl)
      else Ok EmptyString) ;;
   Ok (head ++ last ++ nl))%result.

Definition render_job_info (job_name job_info : pyval) : result string :=
  (let l0 := "🔧 **Job: " ++ py_str job_name ++ "**" ++ nl ++ nl in
   description <- py_get job_info "description" (PStr "Sin descripción") ;;
   color <- py_get job_info "color" (PStr "N/A") ;;
   buildable <- py_get job_info "buildable" PNone ;;
   url <- py_get job_info "url" (PStr "N/A") ;;
   let l1 := "📝 **Descripción:** " ++ py_str description ++ nl
             ++ "📊 **Estado:** " ++ py_str color ++ nl
             ++ "🔧 **Ejecutable:** " ++ yes_no buildable ++ nl
             ++ "🔗 **URL:** " ++ py_str url ++ nl ++ nl in
   last_build <- py_get job_info "lastBuild" PNone ;;
   l2 <-
     (if truthy last_build
      then number <- py_get last_build "number" PNone ;;
           result <- py_get last_build "result" (PStr "N/A") ;;
           Ok ("🔢 **Último Build:** #" ++ py_str number ++ nl
               ++ "📊 **Resultado:** " ++ py_str result ++ nl)
      else Ok EmptyString) ;;
   next_build <- py_get job_info "nextBuildNumber" (PStr "N/A") ;;
   Ok (l0 ++ l1 ++ l2 ++ "⏭️ **Próximo Build:** #" ++ py_str next_build ++ nl))%result.

(** the number that [datetime.fromtimestamp] is given, before the division
    by 1000; only reached after [v > 0] *)
Definition int_value (v : pyval) : Z :=
  match v with
  | PInt z => z
  | PBool b => int_of_bool b
  | _ => 0
  end.

Definition render_build (build : JenkinsBuild.t) : result string :=
  (status_emoji <- table_get build_status_emoji (Some "🔄") (JenkinsBuild.result build) "❓" ;;
   let head :=
     status_emoji ++ " **Build #" ++ py_str (JenkinsBuild.number build) ++ "**" ++ nl
     ++ "   📊 Resultado: "
     ++ (if truthy (JenkinsBuild.result build)
         then py_str (JenkinsBuild.result build) else "En progreso") ++ nl
     ++ "   🔄 Ejecutándose: " ++ yes_no (JenkinsBuild.building build) ++ nl in
   has_duration <- py_gt0 (JenkinsBuild.duration build) ;;
   duration <-
     (if has_duration : bool
      then duration_min <- py_floordiv (JenkinsBuild.duration build) 60000 ;;
           Ok ("   ⏱️ Duración: " ++ Str.of_Z duration_min ++ " min" ++ nl)
      else Ok EmptyString) ;;
   has_timestamp <- py_gt0 (JenkinsBuild.timestamp build) ;;
   date <-
     (if has_timestamp : bool
      then timestamp <- strftime_local (int_value (JenkinsBuild.timestamp build)) ;;
           Ok ("   📅 Fecha: " ++ timestamp ++ nl)
      else Ok EmptyString) ;;
   Ok (head ++ duration ++ date ++ nl))%result.

(** the condition of the comprehension in the [get_failed_jobs] branch *)
Definition tool_failed_cond (job : JenkinsJob.t) : result bool :=
  if eq_str (JenkinsJob.color job) "red" || eq_str (JenkinsJob.color job) "red_anime"
  then Ok true
  else if truthy (JenkinsJob.last_build job)
  then (r <- py_get (JenkinsJob.last_build job) "result" PNone ;; Ok (eq_str r "FAILURE"))%result
  else Ok false.

(** [failed_jobs] of the [get_failed_jobs] branch *)
Definition tool_failed_jobs (jobs : list JenkinsJob.t) : result (list JenkinsJob.t) :=
  filter_result tool_failed_cond jobs.

Definition render_failed_job (job : JenkinsJob.t) : result string :=
  (let head :=
     "❌ **" ++ py_str (JenkinsJob.name job) ++ "**" ++ nl
     ++ "   📊 Estado: " ++ py_str (JenkinsJob.color job) ++ nl in
   last <-
     (if truthy (JenkinsJob.last_build job)
      then number <- py_get (JenkinsJob.last_build job) "number" PNone ;;
           result <- py_get (JenkinsJob.last_build job) "result" PNone ;;
           Ok ("   🔢 Build: #" ++ py_str number ++ nl
               ++ "   📊 Resultado: " ++ py_str result ++ nl)
      else Ok EmptyString) ;;
   Ok (head ++ last ++ nl))%result.

Definition is_empty {A : Type} (l : list A) : bool :=
  match l with [] => true | _ => false end.

Definition call_tool_body (name : string) (arguments : pyval) : M (list types.TextContent) :=
  if String.eqb name "test_connection" then
    connection_info <- test_connection jenkins_manager ;;
    version <- lift (py_get connection_info "version" (PStr "N/A")) ;;
    ret (text_content ("✅ Conexión exitosa con Jenkins" ++ nl
                       ++ "🏷️ Versión: " ++ py_str version ++ nl
                       ++ "🔗 URL: " ++ JENKINS_URL))

  else if String.eqb name "get_jobs" then
    filter_arg <- lift (py_get arguments "filter" (PStr "")) ;;
    filter_name <- lift (py_lower filter_arg) ;;
    jobs <- get_jobs jenkins_manager ;;
    jobs <- lift (get_jobs_filter filter_name jobs) ;;
    if is_empty jobs then ret (text_content "📋 No se encontraron jobs")
    else
      let result := "📋 **Jobs de Jenkins:** (" ++ Str.of_nat (length jobs) ++ " total)" ++ nl ++ nl in
      body <- lift (concat_result render_job jobs) ;;
      ret (text_content (result ++ body))

  else if String.eqb name "get_job_info" then
    job_name <- lift (py_get arguments "job_name" PNone) ;;
    if negb (truthy job_name) then ret (text_content "❌ Error: Se requiere job_name")
    else
      job_info <- get_job_info jenkins_manager job_name ;;
      result <- lift (render_job_info job_name job_info) ;;
      ret (text_content result)

  else if String.eqb name "get_job_builds" then
    job_name <- lift (py_get arguments "job_name" PNone) ;;
    limit <- lift (py_get arguments "limit" (PInt 10)) ;;
    if negb (truthy job_name) then ret (text_content "❌ Error: Se requiere job_name")
    else
      builds <- get_job_builds jenkins_manager job_name limit ;;
      if is_empty builds
      then ret (text_content ("📋 No hay builds para el job '" ++ py_str job_name ++ "'"))
      else
        let result := "📋 **Builds del job '" ++ py_str job_name ++ "':** ("
                      ++ Str.of_nat (length builds) ++ " builds)" ++ nl ++ nl in
        body <- lift (concat_result render_build builds) ;;
        ret (text_content (result ++ body))

  else if String.eqb name "get_build_console" then
    job_name <- lift (py_get arguments "job_name" PNone) ;;
    build_number <- lift (py_get arguments "build_number" PNone) ;;
    lines <- lift (py_get arguments "lines" (PInt 50)) ;;
    if negb (truthy job_name && truthy build_number)
    then ret (text_content "❌ Error: Se requieren job_name y build_number")
    else
      console_output <- get_build_console jenkins_manager job_name build_number lines ;;
      let result := "📝 **Console logs - " ++ py_str job_name ++ " #" ++ py_str build_number
                    ++ "** (últimas " ++ py_str lines ++ " líneas)" ++ nl ++ nl in
      ret (text_content (result ++ "```" ++ nl ++ console_output ++ nl ++ "```"))

  else if String.eqb name "trigger_build" then
    job_name <- lift (py_get arguments "job_name" PNone) ;;
    parameters <- lift (py_get arguments "parameters" (PDict [])) ;;
    if negb (truthy job_name) then ret (text_content "❌ Error: Se requiere job_name")
    else
      success <- trigger_build jenkins_manager job_name parameters ;;
      if success : bool
      then
        let params_text :=
          if truthy parameters then " con parámetros: " ++ py_str parameters else "" in
        ret (text_content ("🚀 Build ejecutado exitosamente para '" ++ py_str job_name ++ "'"
                           ++ params_text))
      else ret (text_content ("❌ Error al ejecutar build para '" ++ py_str job_name ++ "'"))

  else if String.eqb name "get_failed_jobs" then
    jobs <- get_jobs jenkins_manager ;;
    failed_jobs <- lift (tool_failed_jobs jobs) ;;
    if is_empty failed_jobs then ret (text_content "✅ No hay jobs fallidos actualmente")
    else
      let result := "❌ **Jobs Fallidos:** (" ++ Str.of_nat (length failed_jobs) ++ " jobs)"
                    ++ nl ++ nl in
      body <- lift (concat_result render_failed_job failed_jobs) ;;
      ret (text_content (result ++ body))

  else
    ret (text_content ("❌ Herramienta desconocida: " ++ name)).

Definition vpn_tip : string := nl ++ "💡 Tip: ¿Estás conectado a la VPN?".

Definition call_tool_handler (e : exn) : M (list types.TextContent) :=
  let error_msg := str_exn e in
  let error_msg :=
    if Str.contains "Timeout" error_msg then error_msg ++ vpn_tip else error_msg in
  ret (text_content ("❌ Error: " ++ error_msg)).

Definition call_tool (name : string) (arguments : pyval) : M (list types.TextContent) :=
  try_except (call_tool_body name arguments) call_tool_handler.

End Program.

(** ** main *)

Section Bootstrap.

Variable upstream : request -> outcome.
Variable status_error_message : Z -> string -> string.
Variables JENKINS_URL JENKINS_USERNAME JENKINS_API_TOKEN : string.

(** entering [stdio_server()] and running [server.run(...)], which the MCP
    library provides *)
Variable stdio_server : M unit.
Variable server_run : M unit.

(** the lines that the handler of [main] prints on stderr *)
Definition main_handler (e : exn) : list string :=
  ("❌ Error del servidor: " ++ str_exn e)
  :: (if Str.contains "VPN" (str_exn e) || Str.contains "Timeout" (str_exn e)
      then ["💡 Asegúrate de estar conectado a la VPN"]
      else []).

(** [main]: the log of calls, the lines printed on stderr and the exit
    code *)
Definition main (log : list request) : list request * (list string * Z) :=
  let printed := ["🔧 Inicializando servidor MCP para Jenkins..."] in
  match test_connection upstream status_error_message
          (jenkins_manager JENKINS_URL JENKINS_USERNAME JENKINS_API_TOKEN) log with
  | (log1, Raise e) => (log1, ((printed ++ main_handler e)%list, 1))
  | (log1, Ok _) =>
      let printed := (printed ++ ["✅ Conexión con Jenkins establecida"])%list in
      match stdio_server log1 with
      | (log2, Raise e) => (log2, ((printed ++ main_handler e)%list, 1))
      | (log2, Ok _) =>
          let printed := (printed ++ ["✅ Conexión establecida con Claude"])%list in
          match server_run log2 with
          | (log3, Raise e) => (log3, ((printed ++ main_handler e)%list, 1))
          | (log3, Ok _) => (log3, (printed, 0))
          end
      end
  end.

End Bootstrap.

(** ** The vocabulary of the specification *)

(** the last [n] elements of a list, in their order *)
Definition last_lines {A : Type} (n : Z) (l : list A) : list A :=
  skipn (length l - Z.to_nat n) l.

(** a 2xx status *)
Definition is_success (r : httpx.Response) : Prop :=
  200 <= httpx.status_code r <= 299.


(** the lowering of the letters [A] to [Z], which is what [str.lower] does
    to a text of ASCII characters *)
Definition is_upper (c : ascii) : bool :=
  let n := nat_of_ascii c in (Nat.leb 65 n && Nat.leb n 90)%bool.

Definition ascii_lower_char (c : ascii) : ascii :=
  if is_upper c then ascii_of_nat (nat_of_ascii c + 32) else c.

Fixpoint ascii_lower (s : string) : string :=
  match s with
  | EmptyString => EmptyString
  | String c t => String (ascii_lower_char c) (ascii_lower t)
  end.


(** the failed-job rule of the specification *)
Definition failed_rule (job : JenkinsJob.t) : Prop :=
  JenkinsJob.color job = PStr "red" \/ JenkinsJob.color job = PStr "red_anime" \/
  exists d, JenkinsJob.last_build job = PDict d /\
            dict_lookup d "result" = Some (PStr "FAILURE").

(** [last_build] is [None] or a [dict], as the field is declared *)
Definition last_build_typed (job : JenkinsJob.t) : Prop :=
  JenkinsJob.last_build job = PNone \/ exists d, JenkinsJob.last_build job = PDict d.


(** [arg] is in the [required] list of the schema of [tool] *)
Definition requires (tool : types.Tool) (arg : string) : Prop :=
  exists required,
    py_get (types.inputSchema tool) "required" (PList []) = Ok (PList required) /\
    In (PStr arg) required.

(** the call that [get_build_console] makes *)
Definition console_request (py_repr : pyval -> string) (self : JenkinsManager)
    (job_name build_number : pyval) : request :=
  mk_request GET
    (jenkins_url self ++ "/job/" ++ py_str py_repr job_name ++ "/"
     ++ py_str py_repr build_number ++ "/consoleText")
    None.

(** the call that [test_connection] makes *)
Definition root_request (self : JenkinsManager) : request :=
  mk_request GET (jenkins_url self ++ "/api/json") None.

(** the two calls that [trigger_build] chooses from *)
Definition simple_build_request (py_repr : pyval -> string) (self : JenkinsManager)
    (job_name : pyval) : request :=
  mk_request POST (jenkins_url self ++ "/job/" ++ py_str py_repr job_name ++ "/build") None.

Definition parameterized_build_request (py_repr : pyval -> string) (self : JenkinsManager)
    (job_name parameters : pyval) : request :=
  mk_request POST
    (jenkins_url self ++ "/job/" ++ py_str py_repr job_name ++ "/buildWithParameters")
    (Some parameters).

(** the call that [get_job_builds] makes *)
Definition builds_request (py_repr : pyval -> string) (self : JenkinsManager)
    (job_name limit : pyval) : request :=
  mk_request GET
    (jenkins_url self ++ "/job/" ++ py_str py_repr job_name
     ++ "/api/json?tree=builds[number,url,result,building,duration,timestamp]{0,"
     ++ py_str py_repr limit ++ "}")
    None.

(** a field of a record built from the upstream [dict] [d]: the value under
    [key] when the key is there, [default] when it is missing *)
Definition field_or_default (d : dict) (key : string) (default field : pyval) : Prop :=
  (dict_lookup d key = None -> field = default) /\
  (forall v, dict_lookup d key = Some v -> field = v).

(** the failed-job rule as a test *)
Definition failed_ruleb (job : JenkinsJob.t) : bool :=
  eq_str (JenkinsJob.color job) "red" || eq_str (JenkinsJob.color job) "red_anime"
  || match JenkinsJob.last_build job with
     | PDict d => match dict_lookup d "result" with
                  | Some v => eq_str v "FAILURE"
                  | None => false
                  end
     | _ => false
     end.

(** a record of [get_job_builds] next to the upstream [dict] it is built
    from *)
Definition build_defaults (d : dict) (b : JenkinsBuild.t) : Prop :=
  field_or_default d "number" (PInt 0) (JenkinsBuild.number b) /\
  field_or_default d "duration" (PInt 0) (JenkinsBuild.duration b) /\
  field_or_default d "timestamp" (PInt 0) (JenkinsBuild.timestamp b) /\
  field_or_default d "building" (PBool false) (JenkinsBuild.building b) /\
  field_or_default d "result" (PStr "UNKNOWN") (JenkinsBuild.result b) /\
  field_or_default d "url" (PStr "") (JenkinsBuild.url b).


(** [k] slashes *)
Fixpoint slashes (k : nat) : string :=
  match k with
  | O => EmptyString
  | S k' => String "/"%char (slashes k')
  end.

(** the reading of base64 text, which the server does with the header *)
Module Base64Reader.

Definition all_sextets : list Base64.sextet :=
  let bools := [false; true] in
  flat_map (fun b5 => flat_map (fun b4 => flat_map (fun b3 => flat_map (fun b2 =>
    flat_map (fun b1 => map (fun b0 => (b5, b4, b3, b2, b1, b0)) bools) bools) bools) bools)
    bools) bools.

Definition index_of (c : ascii) : option Base64.sextet :=
  find (fun x => Ascii.eqb (Base64.char_of x) c) all_sextets.

Definition byte1 (x y : Base64.sextet) : ascii :=
  let '(x5, x4, x3, x2, x1, x0) := x in
  let '(y5, y4, _, _, _, _) := y in
  Ascii y4 y5 x0 x1 x2 x3 x4 x5.

Definition byte2 (y z : Base64.sextet) : ascii :=
  let '(_, _, y3, y2, y1, y0) := y in
  let '(z5, z4, z3, z2, _, _) := z in
  Ascii z2 z3 z4 z5 y0 y1 y2 y3.

Definition byte3 (z w : Base64.sextet) : ascii :=
  let '(_, _, _, _, z1, z0) := z in
  let '(w5, w4, w3, w2, w1, w0) := w in
  Ascii w0 w1 w2 w3 w4 w5 z0 z1.

Fixpoint b64decode (s : string) : option string :=
  match s with
  | EmptyString => Some EmptyString
  | String c1 (String c2 (String c3 (String c4 t))) =>
      match index_of c1, index_of c2 with
      | Some x, Some y =>
          if Ascii.eqb c3 Base64.pad then
            if Ascii.eqb c4 Base64.pad then
              match t with
              | EmptyString => Some (String (byte1 x y) EmptyString)
              | _ => None
              end
            else None
          else
            match index_of c3 with
            | Some z =>
                if Ascii.eqb c4 Base64.pad then
                  match t with
                  | EmptyString =>
                      Some (String (byte1 x y) (String (byte2 y z) EmptyString))
                  | _ => None
                  end
                else
                  match index_of c4, b64decode t with
                  | Some w, Some rest =>
                      Some (String (byte1 x y) (String (byte2 y z)
                              (String (byte3 z w) rest)))
                  | _, _ => None
                  end
            | None => None
            end
      | _, _ => None
      end
  | _ => None
  end.

End Base64Reader.

(** a computation makes at most [n] calls of the client, and keeps the
    calls that were logged before it *)
Definition calls_at_most {A : Type} (n : nat) (m : M A) : Prop :=
  forall log, exists issued,
    fst (m log) = (log ++ issued)%list /\ (length issued <= n)%nat.

(** the calls that the other methods of the client make *)
Definition jobs_request (self : JenkinsManager) : request :=
  mk_request GET
    (jenkins_url self
     ++ "/api/json?tree=jobs[name,url,color,buildable,lastBuild[number,url,result,building]]")
    None.

Definition job_info_request (py_repr : pyval -> string) (self : JenkinsManager)
    (job_name : pyval) : request :=
  mk_request GET (jenkins_url self ++ "/job/" ++ py_str py_repr job_name ++ "/api/json") None.

Definition build_info_request (py_repr : pyval -> string) (self : JenkinsManager)
    (job_name build_number : pyval) : request :=
  mk_request GET
    (jenkins_url self ++ "/job/" ++ py_str py_repr job_name ++ "/"
     ++ py_str py_repr build_number ++ "/api/json")
    None.

Definition queue_request (self : JenkinsManager) : request :=
  mk_request GET (jenkins_url self ++ "/queue/api/json") None.

(** a record of [get_jobs] next to the upstream [dict] it is built from *)
Definition job_defaults (d : dict) (job : JenkinsJob.t) : Prop :=
  field_or_default d "name" (PStr "") (JenkinsJob.name job) /\
  field_or_default d "url" (PStr "") (JenkinsJob.url job) /\
  field_or_default d "color" (PStr "") (JenkinsJob.color job) /\
  field_or_default d "buildable" (PBool false) (JenkinsJob.buildable job) /\
  field_or_default d "lastBuild" PNone (JenkinsJob.last_build job).

(** ** Sample inputs *)

Module Sample.

(** a rendering of lists and dicts for the sample runs, in the place of
    [repr] *)
Definition py_repr (v : pyval) : string := Json.dumps false v.

Definition status_error_message (status : Z) (url : string) : string :=
  "Error '" ++ Str.of_Z status ++ "' for url '" ++ url ++ "'".

Definition strftime_local (ms : Z) : result string := Ok "1970-01-01 00:00".

Definition JENKINS_URL : string := "https://jenkins.example/".
Definition JENKINS_USERNAME : string := "ci".
Definition JENKINS_API_TOKEN : string := "token".

Definition manager : JenkinsManager :=
  jenkins_manager JENKINS_URL JENKINS_USERNAME JENKINS_API_TOKEN.

Fixpoint numbered_lines (first count : nat) : list string :=
  match count with
  | O => []
  | S k => ("line " ++ Str.of_nat first) :: numbered_lines (S first) k
  end.

(** a console text of 200 lines *)
Definition console_200 : string := Str.join Str.nl (numbered_lines 1 200).

Definition no_json : result pyval :=
  Raise (JSONDecodeError "Expecting value: line 1 column 1 (char 0)").

(** a server that answers every request with the same response *)
Definition always (r : httpx.Response) (req : request) : outcome := Responded r.

(** a server that cannot be reached *)
Definition unreachable (req : request) : outcome := Failed (ConnectTimeout "timed out").

Definition job (name color : string) (last_build : pyval) : JenkinsJob.t :=
  JenkinsJob.mk (PStr name) (PStr ("https://jenkins.example/job/" ++ name ++ "/"))
                (PStr color) (PBool true) last_build.

Definition last (number : Z) (result : string) : pyval :=
  PDict [("number", PInt number); ("url", PStr ""); ("result", PStr result);
         ("building", PBool false)].

(** a red job without builds, a blue job whose last build failed, and a
    blue job whose last build passed *)
Definition jobs : list JenkinsJob.t :=
  [job "nightly-build-1" "red" PNone;
   job "deploy" "blue" (last 7 "FAILURE");
   job "Docs" "blue" (last 3 "SUCCESS")].

(** two builds; the second one has only its number *)
Definition builds_data : list dict :=
  [[("number", PInt 12); ("result", PStr "SUCCESS"); ("duration", PInt 65000)];
   [("number", PInt 13)]].

Definition builds_body : dict := [("builds", PList (map PDict builds_data))].

Definition builds_response : httpx.Response :=
  httpx.mk_Response 200 "" (Ok (PDict builds_body)).

Definition status_response (status : Z) : httpx.Response :=
  httpx.mk_Response status "" no_json.

Definition info : pyval := PDict [("version", PStr "2.440.1")].

Definition info_response : httpx.Response := httpx.mk_Response 200 "" (Ok info).

Definition console_response (console : string) : httpx.Response :=
  httpx.mk_Response 200 console no_json.

(** a server that answers every request with the console text *)
Definition console_server (console : string) : request -> outcome :=
  always (console_response console).

(** two jobs as the server sends them; the second one has no field *)
Definition jobs_data : list dict :=
  [[("name", PStr "app"); ("color", PStr "red"); ("buildable", PBool true)]; []].

Definition jobs_response : httpx.Response :=
  httpx.mk_Response 200 "" (Ok (PDict [("jobs", PList (map PDict jobs_data))])).

Definition queue_items : pyval := PList [PDict [("id", PInt 41); ("why", PStr "waiting")]].

Definition queue_response : httpx.Response :=
  httpx.mk_Response 200 "" (Ok (PDict [("items", queue_items)])).

Definition no_builds_response : httpx.Response :=
  httpx.mk_Response 200 "" (Ok (PDict [("builds", PList [])])).

(** a server that refuses the connection *)
Definition refusing (req : request) : outcome :=
  Failed (TransportError "All connection attempts failed").

(** a list of jobs whose second entry is not an object *)
Definition broken_jobs_response : httpx.Response :=
  httpx.mk_Response 200 ""
    (Ok (PDict [("jobs", PList [PDict [("name", PStr "app")]; PStr "oops"; PDict []])])).

Definition job_info_data : dict :=
  [("description", PStr "Nightly"); ("color", PStr "blue"); ("nextBuildNumber", PInt 8)].

Definition job_info_response : httpx.Response :=
  httpx.mk_Response 200 "" (Ok (PDict job_info_data)).

End Sample.

(** * Properties *)

(** ** Strings and lists *)

Example split_keeps_empty_pieces :
  Str.split Str.newline ("a" ++ Str.nl ++ Str.nl ++ "b" ++ Str.nl) = ["a"; ""; "b"; ""].
Proof. reflexivity. Qed.

Example slice_examples :
  (py_slice_from (-2) [1; 2; 3], py_slice_from (-5) [1; 2; 3],
   py_slice_from 0 [1; 2; 3], py_slice_from 2 [1; 2; 3])
  = ([2; 3], [1; 2; 3], [1; 2; 3], [3]).
Proof. reflexivity. Qed.

Example lower_example : ascii_lower "Nightly-BUILD_1" = "nightly-build_1".
Proof. reflexivity. Qed.

Example contains_examples :
  (Str.contains "build" "nightly-build-1", Str.contains "" "", Str.contains "x" "")
  = (true, true, false).
Proof. reflexivity. Qed.

Example rstrip_example : Str.rstrip_slash "https://ci.example//" = "https://ci.example".
Proof. reflexivity. Qed.

Example dumps_example :
  Json.dumps false (PList [PDict [("name", PStr "app"); ("last_build", PNone)]; PInt 3])
  = "[" ++ Str.nl ++ "  {" ++ Str.nl
    ++ "    " ++ Json.dquote ++ "name" ++ Json.dquote ++ ": "
    ++ Json.dquote ++ "app" ++ Json.dquote ++ "," ++ Str.nl
    ++ "    " ++ Json.dquote ++ "last_build" ++ Json.dquote ++ ": null" ++ Str.nl
    ++ "  }," ++ Str.nl ++ "  3" ++ Str.nl ++ "]".
Proof. reflexivity. Qed.

Example escape_ascii_example :
  Json.escape_ascii "conexión 🔧" = "conexi\u00f3n \ud83d\udd27".
Proof. reflexivity. Qed.

Lemma split_not_nil (sep : ascii) (s : string) : Str.split sep s <> [].
Proof.
  destruct s as [|c t]; simpl; [discriminate|].
  destruct (Ascii.eqb c sep); [discriminate|].
  destruct (Str.split sep t); discriminate.
Qed.

Lemma concat_cons_char (sep : string) (c : ascii) (h : string) (r : list string) :
  String.concat sep (String c h :: r) = String c (String.concat sep (h :: r)).
Proof. destruct r; reflexivity. Qed.

Lemma join_split (s : string) : Str.join Str.nl (Str.split Str.newline s) = s.
Proof.
  unfold Str.join.
  induction s as [|c t IH]; simpl; [reflexivity|].
  destruct (Ascii.eqb c Str.newline) eqn:E.
  - apply Ascii.eqb_eq in E; subst c.
    destruct (Str.split Str.newline t) as [|h r] eqn:S.
    + exfalso; exact (split_not_nil _ _ S).
    + change (String.concat Str.nl ("" :: h :: r))
        with ("" ++ Str.nl ++ String.concat Str.nl (h :: r)).
      rewrite IH; reflexivity.
  - destruct (Str.split Str.newline t) as [|h r] eqn:S.
    + exfalso; exact (split_not_nil _ _ S).
    + rewrite concat_cons_char, IH; reflexivity.
Qed.

Lemma py_slice_from_zero {A : Type} (l : list A) : py_slice_from 0 l = l.
Proof.
  unfold py_slice_from; simpl.
  replace (Z.to_nat (Z.min 0 (Z.of_nat (length l)))) with O by lia.
  reflexivity.
Qed.

Lemma py_slice_from_neg {A : Type} (n : Z) (l : list A) :
  1 <= n -> py_slice_from (- n) l = last_lines n l.
Proof.
  intro Hn; unfold py_slice_from, last_lines.
  destruct (- n <? 0) eqn:E; [|apply Z.ltb_ge in E; lia].
  f_equal; lia.
Qed.

Lemma last_lines_length {A : Type} (n : Z) (l : list A) :
  length (last_lines n l) = Nat.min (Z.to_nat n) (length l).
Proof. unfold last_lines; rewrite length_skipn; lia. Qed.

Lemma last_lines_suffix {A : Type} (n : Z) (l : list A) :
  exists dropped, l = (dropped ++ last_lines n l)%list.
Proof.
  exists (firstn (length l - Z.to_nat n) l).
  unfold last_lines; symmetry; apply firstn_skipn.
Qed.

(** ** The monad *)

Lemma bind_ok {A B : Type} (m : M A) (f : A -> M B) log log' a :
  m log = (log', Ok a) -> bind m f log = f a log'.
Proof. intro H; unfold bind; rewrite H; reflexivity. Qed.

Lemma bind_raise {A B : Type} (m : M A) (f : A -> M B) log log' e :
  m log = (log', Raise e) -> bind m f log = (log', Raise e).
Proof. intro H; unfold bind; rewrite H; reflexivity. Qed.

Lemma try_except_ok {A : Type} (m : M A) (h : exn -> M A) log log' a :
  m log = (log', Ok a) -> try_except m h log = (log', Ok a).
Proof. intro H; unfold try_except; rewrite H; reflexivity. Qed.

Lemma try_except_raise {A : Type} (m : M A) (h : exn -> M A) log log' e :
  m log = (log', Raise e) -> try_except m h log = h e log'.
Proof. intro H; unfold try_except; rewrite H; reflexivity. Qed.

Section Properties.

Variable upstream : request -> outcome.
Variable str_lower : string -> string.
Variable py_repr : pyval -> string.
Variable status_error_message : Z -> string -> string.
Variable strftime_local : Z -> result string.
Variables JENKINS_URL JENKINS_USERNAME JENKINS_API_TOKEN : string.

Lemma send_responded req r log :
  upstream req = Responded r -> send upstream req log = ((log ++ [req])%list, Ok r).
Proof. intro H; unfold send; rewrite H; reflexivity. Qed.

Lemma send_failed req e log :
  upstream req = Failed e -> send upstream req log = ((log ++ [req])%list, Raise e).
Proof. intro H; unfold send; rewrite H; reflexivity. Qed.

Lemma raise_for_status_success url r log :
  is_success r -> raise_for_status status_error_message url r log = (log, Ok tt).
Proof.
  intros [H1 H2]; unfold raise_for_status.
  apply Z.leb_le in H1; apply Z.leb_le in H2; rewrite H1, H2; reflexivity.
Qed.

Lemma raise_for_status_error url r log :
  ~ is_success r ->
  raise_for_status status_error_message url r log
  = (log, Raise (HTTPStatusError (httpx.status_code r)
                                 (status_error_message (httpx.status_code r) url))).
Proof.
  intro H; unfold raise_for_status.
  destruct (200 <=? httpx.status_code r) eqn:E1;
    destruct (httpx.status_code r <=? 299) eqn:E2; try reflexivity.
  exfalso; apply H; split; [apply Z.leb_le, E1 | apply Z.leb_le, E2].
Qed.

(** ** get_build_console *)

Lemma get_build_console_run self job_name build_number lines r start log :
  upstream (console_request py_repr self job_name build_number) = Responded r ->
  is_success r ->
  py_neg lines = Ok start ->
  get_build_console upstream py_repr status_error_message self job_name build_number lines log
  = ((log ++ [console_request py_repr self job_name build_number])%list,
     Ok (Str.join Str.nl (py_slice_from start (Str.split Str.newline (httpx.text r))))).
Proof.
  intros Hresp Hok Hneg.
  unfold get_build_console.
  erewrite bind_ok by (apply send_responded; exact Hresp).
  erewrite bind_ok by (apply raise_for_status_success; exact Hok).
  unfold bind, lift, ret; rewrite Hneg; reflexivity.
Qed.

(** C10: with [lines = 0] the slice [lines_list[-0:]] is the whole list, and
    the client returns the whole console text, every line of it. *)
Theorem get_build_console_zero_lines self job_name build_number r log :
  upstream (console_request py_repr self job_name build_number) = Responded r ->
  is_success r ->
  get_build_console upstream py_repr status_error_message self job_name build_number
                    (PInt 0) log
  = ((log ++ [console_request py_repr self job_name build_number])%list,
     Ok (httpx.text r))
  /\ py_slice_from (- 0) (Str.split Str.newline (httpx.text r))
     = Str.split Str.newline (httpx.text r).
Proof.
  intros Hresp Hok; split.
  - rewrite (get_build_console_run self job_name build_number (PInt 0) r 0 log Hresp Hok eq_refl).
    rewrite py_slice_from_zero, join_split; reflexivity.
  - apply py_slice_from_zero.
Qed.

Lemma split_terminated (s : string) :
  Str.split Str.newline (s ++ Str.nl) = (Str.split Str.newline s ++ [""])%list.
Proof.
  induction s as [|c s IH]; [reflexivity|].
  cbn [append Str.split]; rewrite IH.
  destruct (Ascii.eqb c Str.newline); [reflexivity|].
  destruct (Str.split Str.newline s) as [|h r] eqn:E;
    [exfalso; exact (split_not_nil _ _ E)|reflexivity].
Qed.

Lemma last_lines_snoc {A : Type} (n : Z) (l : list A) (x : A) :
  1 <= n -> last_lines n (l ++ [x]) = (last_lines (n - 1) l ++ [x])%list.
Proof.
  intro Hn; unfold last_lines.
  rewrite length_app; cbn [length].
  rewrite skipn_app.
  replace (length l + 1 - Z.to_nat n)%nat with (length l - Z.to_nat (n - 1))%nat by lia.
  replace (length l - Z.to_nat (n - 1) - length l)%nat with O by lia.
  reflexivity.
Qed.

(** X25: for [lines >= 1] the client splits the console text on the
    newline and returns the last [lines] of the pieces (all of them when
    there are fewer), in their order, joined by the newline.  The piece
    after a final newline is one of them: on a text that ends with a
    newline the last piece is empty, and the text returned holds the last
    [lines - 1] lines only. *)
Theorem get_build_console_tail self job_name build_number n r log :
  upstream (console_request py_repr self job_name build_number) = Responded r ->
  is_success r ->
  1 <= n ->
  let lines_list := Str.split Str.newline (httpx.text r) in
  get_build_console upstream py_repr status_error_message self job_name build_number
                    (PInt n) log
  = ((log ++ [console_request py_repr self job_name build_number])%list,
     Ok (Str.join Str.nl (last_lines n lines_list)))
  /\ length (last_lines n lines_list) = Nat.min (Z.to_nat n) (length lines_list)
  /\ (exists dropped, lines_list = (dropped ++ last_lines n lines_list)%list)
  /\ (forall body, httpx.text r = body ++ Str.nl ->
      last_lines n lines_list
      = (last_lines (n - 1) (Str.split Str.newline body) ++ [""])%list).
Proof.
  intros Hresp Hok Hn lines_list; repeat split.
  - rewrite (get_build_console_run self job_name build_number (PInt n) r (- n) log Hresp Hok eq_refl).
    rewrite py_slice_from_neg by exact Hn; reflexivity.
  - apply last_lines_length.
  - apply last_lines_suffix.
  - intros body Hbody; subst lines_list.
    rewrite Hbody, split_terminated; apply last_lines_snoc; exact Hn.
Qed.

(** ** test_connection *)

Lemma test_connection_status_error self r log :
  upstream (root_request self) = Responded r ->
  ~ is_success r ->
  test_connection upstream status_error_message self log
  = ((log ++ [root_request self])%list,
     Raise (PlainException
       (if httpx.status_code r =? 401
        then "Error de autenticación - Verifica usuario y token"
        else if httpx.status_code r =? 403
        then "Sin permisos - Verifica los permisos del usuario"
        else "Error HTTP " ++ Str.of_Z (httpx.status_code r)))).
Proof.
  intros Hresp Hbad; unfold test_connection.
  erewrite try_except_raise.
  2:{ erewrite bind_ok by (apply send_responded; exact Hresp).
      erewrite bind_raise by (apply raise_for_status_error; exact Hbad).
      reflexivity. }
  cbv beta iota.
  destruct (httpx.status_code r =? 401); [reflexivity|].
  destruct (httpx.status_code r =? 403); reflexivity.
Qed.

(** C7: [test_connection] fails with the connectivity message, which carries
    the VPN hint, on a connect timeout; with the authentication message on
    401; with the permission message on 403; with a message that carries the
    status on every other status outside 2xx; and on a 2xx status it returns
    the parsed body. *)
Theorem test_connection_outcomes self log :
  let req := root_request self in
  let run := test_connection upstream status_error_message self log in
  let fails_with msg := run = ((log ++ [req])%list, Raise (PlainException msg)) in
  (forall m, upstream req = Failed (ConnectTimeout m) ->
     fails_with "Timeout de conexión - ¿Estás conectado a la VPN?"
     /\ Str.contains "VPN" "Timeout de conexión - ¿Estás conectado a la VPN?" = true) /\
  (forall r, upstream req = Responded r -> httpx.status_code r = 401 ->
     fails_with "Error de autenticación - Verifica usuario y token") /\
  (forall r, upstream req = Responded r -> httpx.status_code r = 403 ->
     fails_with "Sin permisos - Verifica los permisos del usuario") /\
  (forall r, upstream req = Responded r -> ~ is_success r ->
     httpx.status_code r <> 401 -> httpx.status_code r <> 403 ->
     fails_with ("Error HTTP " ++ Str.of_Z (httpx.status_code r))) /\
  (forall r info, upstream req = Responded r -> is_success r ->
     httpx.json r = Ok info ->
     run = ((log ++ [req])%list, Ok info)).
Proof.
  intros req run fails_with; subst req run fails_with; cbv beta.
  split; [|split; [|split; [|split]]].
  - intros m H; split; [|reflexivity].
    unfold test_connection.
    erewrite try_except_raise
      by (erewrite bind_raise by (apply send_failed; exact H); reflexivity).
    reflexivity.
  - intros r H Hs.
    rewrite (test_connection_status_error self r log H) by (unfold is_success; lia).
    rewrite Hs; reflexivity.
  - intros r H Hs.
    rewrite (test_connection_status_error self r log H) by (unfold is_success; lia).
    rewrite Hs; reflexivity.
  - intros r H Hbad H401 H403.
    rewrite (test_connection_status_error self r log H Hbad).
    apply Z.eqb_neq in H401, H403; rewrite H401, H403; reflexivity.
  - intros r info H Hok Hjson.
    unfold test_connection.
    erewrite try_except_ok; [reflexivity|].
    erewrite bind_ok by (apply send_responded; exact H).
    erewrite bind_ok by (apply raise_for_status_success; exact Hok).
    unfold lift; rewrite Hjson; reflexivity.
Qed.

(** ** trigger_build *)

Lemma trigger_build_run self job_name parameters log :
  let req := if truthy parameters
             then parameterized_build_request py_repr self job_name parameters
             else simple_build_request py_repr self job_name in
  fst (trigger_build upstream py_repr self job_name parameters log) = (log ++ [req])%list /\
  forall r, upstream req = Responded r ->
    snd (trigger_build upstream py_repr self job_name parameters log)
    = Ok ((httpx.status_code r =? 200) || (httpx.status_code r =? 201)).
Proof.
  unfold trigger_build, parameterized_build_request, simple_build_request, client_post, bind, send.
  destruct (truthy parameters); cbv zeta; split.
  - destruct (upstream _); reflexivity.
  - intros r H; rewrite H; reflexivity.
  - destruct (upstream _); reflexivity.
  - intros r H; rewrite H; reflexivity.
Qed.

Lemma status_200_201 (status : Z) :
  (status =? 200) || (status =? 201) = true <-> status = 200 \/ status = 201.
Proof. rewrite orb_true_iff, !Z.eqb_eq; reflexivity. Qed.

Lemma dict_get_some d k default v : dict_lookup d k = Some v -> dict_get d k default = v.
Proof. intro H; unfold dict_get; rewrite H; reflexivity. Qed.

Lemma dict_get_none d k default : dict_lookup d k = None -> dict_get d k default = default.
Proof. intro H; unfold dict_get; rewrite H; reflexivity. Qed.

Ltac tool_branch :=
  unfold call_tool_body; cbn [String.eqb Ascii.eqb Bool.eqb].

(** C5: with a non-empty [dict] of parameters [trigger_build] makes one POST
    to [buildWithParameters] with the parameters as form data; with an empty
    [dict] or without parameters it makes one POST to [build]; either way it
    returns [True] exactly when the status is 200 or 201.  The tool passes
    an empty [dict] when the argument is absent. *)
Theorem trigger_build_endpoints self job_name log :
  (forall kv rest,
     let parameters := PDict (kv :: rest) in
     let req := parameterized_build_request py_repr self job_name parameters in
     let run := trigger_build upstream py_repr self job_name parameters log in
     fst run = (log ++ [req])%list /\
     req_method req = POST /\ req_data req = Some parameters /\
     forall r, upstream req = Responded r ->
       exists b, snd run = Ok b /\
                 (b = true <-> httpx.status_code r = 200 \/ httpx.status_code r = 201)) /\
  (forall parameters, parameters = PDict [] \/ parameters = PNone ->
     let req := simple_build_request py_repr self job_name in
     let run := trigger_build upstream py_repr self job_name parameters log in
     fst run = (log ++ [req])%list /\
     req_method req = POST /\ req_data req = None /\
     forall r, upstream req = Responded r ->
       exists b, snd run = Ok b /\
                 (b = true <-> httpx.status_code r = 200 \/ httpx.status_code r = 201)) /\
  (forall d job,
     dict_lookup d "job_name" = Some job -> truthy job = true ->
     dict_lookup d "parameters" = None ->
     fst (call_tool upstream str_lower py_repr status_error_message strftime_local
                    JENKINS_URL JENKINS_USERNAME JENKINS_API_TOKEN
                    "trigger_build" (PDict d) log)
     = (log ++ [simple_build_request py_repr
                  (jenkins_manager JENKINS_URL JENKINS_USERNAME JENKINS_API_TOKEN) job])%list).
Proof.
  split; [|split].
  - intros kv rest parameters req run.
    destruct (trigger_build_run self job_name parameters log) as [Hlog Hres].
    repeat split; try exact Hlog.
    intros r Hr; eexists; split; [apply (Hres r Hr)|apply status_200_201].
  - intros parameters Hp req run.
    destruct (trigger_build_run self job_name parameters log) as [Hlog Hres].
    assert (Hf : truthy parameters = false) by (destruct Hp; subst; reflexivity).
    rewrite Hf in Hlog, Hres.
    repeat split; try exact Hlog.
    intros r Hr; eexists; split; [apply (Hres r Hr)|apply status_200_201].
  - intros d job Hjob Htruthy Hnone.
    unfold call_tool, try_except; tool_branch.
    unfold bind at 1, lift at 1, py_get.
    rewrite (dict_get_some _ _ _ _ Hjob).
    unfold bind at 1, lift at 1.
    rewrite (dict_get_none _ _ _ Hnone), Htruthy; cbn [negb].
    pose proof (trigger_build_run
                  (jenkins_manager JENKINS_URL JENKINS_USERNAME JENKINS_API_TOKEN)
                  job (PDict []) log) as [Hlog _].
    cbn [truthy] in Hlog.
    unfold bind.
    destruct (trigger_build _ _ _ _ _ log) as [log' [[|]|e]]; cbn [fst] in Hlog; subst log';
      reflexivity.
Qed.

(** ** get_job_builds *)

Lemma field_or_default_get d key default :
  field_or_default d key default (dict_get d key default).
Proof.
  split.
  - intro H; apply dict_get_none; exact H.
  - intros v H; apply dict_get_some; exact H.
Qed.

Lemma map_result_builds (ds : list dict) :
  exists builds,
    map_result build_of_data (map PDict ds) = Ok builds /\ Forall2 build_defaults ds builds.
Proof.
  induction ds as [|d ds [builds [IH1 IH2]]].
  - exists []; split; [reflexivity|constructor].
  - eexists; split.
    + cbn [map map_result]; rewrite IH1; cbn; reflexivity.
    + constructor; [|exact IH2].
      repeat split; cbn; try (intro H; apply dict_get_none; exact H);
        intros v H; apply dict_get_some; exact H.
Qed.

(** C8: every record that [get_job_builds] builds from the [dict]s of the
    upstream body takes [0] for a missing [number], [duration] or
    [timestamp], [False] for a missing [building], and the string
    ["UNKNOWN"] for a missing [result]; a field that is there is copied. *)
Theorem get_job_builds_defaults self job_name limit r data builds_data log :
  upstream (builds_request py_repr self job_name limit) = Responded r ->
  is_success r ->
  httpx.json r = Ok (PDict data) ->
  dict_get data "builds" (PList []) = PList (map PDict builds_data) ->
  exists builds,
    get_job_builds upstream py_repr status_error_message self job_name limit log
    = ((log ++ [builds_request py_repr self job_name limit])%list, Ok builds)
    /\ Forall2 build_defaults builds_data builds
    /\ (forall d b, In (d, b) (combine builds_data builds) ->
        dict_lookup d "result" = None ->
        JenkinsBuild.result b = PStr "UNKNOWN" /\ JenkinsBuild.result b <> PNone).
Proof.
  intros Hresp Hok Hjson Hbuilds.
  destruct (map_result_builds builds_data) as [builds [Hmap Hall]].
  exists builds; split; [|split; [exact Hall|]].
  - unfold get_job_builds.
    erewrite bind_ok by (apply send_responded; exact Hresp).
    erewrite bind_ok by (apply raise_for_status_success; exact Hok).
    unfold bind, lift; rewrite Hjson; cbn [py_get]; rewrite Hbuilds; cbn [py_iter].
    rewrite Hmap; reflexivity.
  - clear - Hall; induction Hall as [|d b ds bs Hdb _ IH]; intros d' b' Hin Hnone.
    + destruct Hin.
    + destruct Hin as [Heq|Hin]; [|exact (IH d' b' Hin Hnone)].
      inversion Heq; subst d' b'.
      destruct Hdb as (_ & _ & _ & _ & [Hres _] & _).
      rewrite (Hres Hnone); split; [reflexivity|discriminate].
Qed.

(** ** The failed-job rule *)

Lemma filter_result_ok {A : Type} (cond : A -> result bool) (f : A -> bool) (l : list A) :
  (forall x, In x l -> cond x = Ok (f x)) -> filter_result cond l = Ok (filter f l).
Proof.
  induction l as [|x l IH]; intro H; [reflexivity|].
  cbn [filter_result filter].
  rewrite (H x (or_introl eq_refl)), IH by (intros y Hy; apply H; right; exact Hy).
  reflexivity.
Qed.

Lemma concat_result_ok {A : Type} (f : A -> result string) (l : list A) :
  (forall x, In x l -> exists s, f x = Ok s) -> exists body, concat_result f l = Ok body.
Proof.
  induction l as [|x l IH]; intro H; [exists ""; reflexivity|].
  destruct (H x (or_introl eq_refl)) as [s Hs].
  destruct IH as [body Hbody]; [intros y Hy; apply H; right; exact Hy|].
  exists (s ++ body); cbn [concat_result]; rewrite Hs, Hbody; reflexivity.
Qed.

Lemma eq_str_iff v s : eq_str v s = true <-> v = PStr s.
Proof.
  destruct v; cbn; try (split; [discriminate|intro H; discriminate H]).
  rewrite String.eqb_eq; split; [intros ->; reflexivity|intro H; inversion H; reflexivity].
Qed.

Lemma failed_ruleb_iff job : failed_ruleb job = true <-> failed_rule job.
Proof.
  unfold failed_ruleb, failed_rule.
  rewrite !orb_true_iff, !eq_str_iff.
  split.
  - intros [[H|H]|H]; [left; exact H|right; left; exact H|right; right].
    destruct (JenkinsJob.last_build job) as [| | | | |d]; try discriminate.
    exists d; split; [reflexivity|].
    destruct (dict_lookup d "result") as [v|]; [|discriminate].
    apply eq_str_iff in H; rewrite H; reflexivity.
  - intros [H|[H|(d & Hd & Hr)]]; [left; left; exact H|left; right; exact H|right].
    rewrite Hd, Hr; reflexivity.
Qed.

Lemma resource_failed_cond_typed job :
  last_build_typed job -> resource_failed_cond job = Ok (failed_ruleb job).
Proof.
  unfold resource_failed_cond, failed_ruleb.
  intros [H|[d H]]; rewrite H;
    destruct (eq_str (JenkinsJob.color job) "red" || eq_str (JenkinsJob.color job) "red_anime");
    try reflexivity.
  destruct d as [|kv d']; [reflexivity|].
  cbn [truthy py_get rbind orb]; unfold dict_get.
  destruct (dict_lookup (kv :: d') "result"); reflexivity.
Qed.

Lemma tool_failed_cond_typed job :
  last_build_typed job -> tool_failed_cond job = Ok (failed_ruleb job).
Proof.
  unfold tool_failed_cond, failed_ruleb.
  intros [H|[d H]]; rewrite H;
    destruct (eq_str (JenkinsJob.color job) "red" || eq_str (JenkinsJob.color job) "red_anime");
    try reflexivity.
  destruct d as [|kv d']; [reflexivity|].
  cbn [truthy py_get rbind orb]; unfold dict_get.
  destruct (dict_lookup (kv :: d') "result"); reflexivity.
Qed.

Lemma render_failed_job_typed job :
  last_build_typed job -> exists s, render_failed_job py_repr job = Ok s.
Proof.
  unfold render_failed_job.
  intros [H|[d H]]; rewrite H; cbn [truthy]; [eexists; reflexivity|].
  destruct d; eexists; reflexivity.
Qed.

(** C1: a job is among the failed jobs exactly when its color is ["red"] or
    ["red_anime"], or it has a last build whose result is ["FAILURE"]; the
    resource [jenkins://failed-jobs] and the tool [get_failed_jobs] select
    the same jobs from every list, and each renders the jobs it selects. *)
Theorem failed_jobs_rule jobs :
  resource_failed_jobs jobs = tool_failed_jobs jobs /\
  (Forall last_build_typed jobs ->
   exists selected,
     resource_failed_jobs jobs = Ok selected /\
     tool_failed_jobs jobs = Ok selected /\
     (forall job, In job selected <-> In job jobs /\ failed_rule job) /\
     forall arguments log log',
       get_jobs upstream status_error_message
                (jenkins_manager JENKINS_URL JENKINS_USERNAME JENKINS_API_TOKEN) log
       = (log', Ok jobs) ->
       read_resource upstream status_error_message
                     JENKINS_URL JENKINS_USERNAME JENKINS_API_TOKEN "jenkins://failed-jobs" log
       = (log', Ok (Json.dumps false (PList (map failed_job_as_dict selected)))) /\
       exists body,
         concat_result (render_failed_job py_repr) selected = Ok body /\
         call_tool upstream str_lower py_repr status_error_message strftime_local
                   JENKINS_URL JENKINS_USERNAME JENKINS_API_TOKEN "get_failed_jobs" arguments log
         = (log', Ok (text_content
                        (if is_empty selected then "✅ No hay jobs fallidos actualmente"
                         else ("❌ **Jobs Fallidos:** (" ++ Str.of_nat (length selected)
                               ++ " jobs)" ++ nl ++ nl) ++ body)))).
Proof.
  split; [reflexivity|].
  intro Htyped; rewrite Forall_forall in Htyped.
  exists (filter failed_ruleb jobs).
  assert (Hres : resource_failed_jobs jobs = Ok (filter failed_ruleb jobs))
    by (apply filter_result_ok; intros x Hx; apply resource_failed_cond_typed, Htyped, Hx).
  assert (Htool : tool_failed_jobs jobs = Ok (filter failed_ruleb jobs))
    by (apply filter_result_ok; intros x Hx; apply tool_failed_cond_typed, Htyped, Hx).
  split; [exact Hres|split; [exact Htool|split]].
  - intro job; rewrite filter_In, failed_ruleb_iff; reflexivity.
  - intros arguments log log' Hjobs; split.
    + unfold read_resource, read_resource_body; cbn [String.eqb Ascii.eqb Bool.eqb].
      erewrite try_except_ok; [reflexivity|].
      erewrite bind_ok by exact Hjobs.
      unfold bind, lift; rewrite Hres; reflexivity.
    + destruct (concat_result_ok (render_failed_job py_repr) (filter failed_ruleb jobs))
        as [body Hbody].
      { intros x Hx; apply render_failed_job_typed, Htyped.
        apply filter_In in Hx; apply Hx. }
      exists body; split; [exact Hbody|].
      unfold call_tool; tool_branch.
      erewrite try_except_ok; [reflexivity|].
      erewrite bind_ok by exact Hjobs.
      unfold bind at 1, lift at 1; rewrite Htool.
      destruct (filter failed_ruleb jobs) as [|j js]; [reflexivity|].
      cbn [is_empty].
      unfold bind, lift; rewrite Hbody; reflexivity.
Qed.

(** ** The filter of get_jobs *)

Lemma prefix_iff (a b : string) : String.prefix a b = true <-> exists s, b = a ++ s.
Proof.
  revert b; induction a as [|c a IH]; intro b.
  - destruct b; cbn; (split; [intros _; eexists; reflexivity|reflexivity]).
  - destruct b as [|c' b]; cbn.
    + split; [discriminate|intros [s H]; discriminate H].
    + destruct (ascii_dec c c') as [->|Hne].
      * rewrite IH; split; intros [s H]; exists s; [rewrite H; reflexivity|].
        inversion H; reflexivity.
      * split; [discriminate|intros [s H]; inversion H; subst; exfalso; apply Hne; reflexivity].
Qed.




Lemma lower_empty (s : string) : ascii_lower s = "" <-> s = "".
Proof. destruct s; cbn; split; intro H; try reflexivity; discriminate H. Qed.




(** ** Validation of the arguments *)

Ltac run_validation Hnone :=
  unfold call_tool; erewrite try_except_ok; [reflexivity|];
  tool_branch; unfold bind, lift; cbn [py_get];
  rewrite ?(dict_get_none _ _ _ Hnone);
  cbn [truthy negb]; rewrite ?andb_false_r; reflexivity.

(** C3: when an argument that the schema of a tool requires is absent, the
    tool returns a validation message and the client makes no call: the log
    of calls is unchanged. *)
Theorem missing_required_argument tool arg d log :
  In tool list_tools ->
  requires tool arg ->
  dict_lookup d arg = None ->
  exists msg,
    call_tool upstream str_lower py_repr status_error_message strftime_local
              JENKINS_URL JENKINS_USERNAME JENKINS_API_TOKEN (types.name tool) (PDict d) log
    = (log, Ok (text_content msg))
    /\ String.prefix "❌ Error: Se requiere" msg = true.
Proof.
  intros Htool (required & Hschema & Harg) Hnone.
  unfold list_tools in Htool; cbn [In] in Htool.
  repeat (destruct Htool as [Htool|Htool]; [subst tool|]); try contradiction;
    cbn in Hschema; inversion Hschema; subst required; clear Hschema;
    cbn [In] in Harg;
    repeat (destruct Harg as [Harg|Harg]; [inversion Harg; subst arg; clear Harg|]);
    try contradiction.
  all: cbn [types.name]; eexists; split; [run_validation Hnone|reflexivity].
Qed.

(** C9: [get_build_console] with [build_number = 0] returns the message of
    the missing argument and makes no call, as it does when [build_number]
    is absent. *)
Theorem build_number_zero_is_missing d log :
  dict_lookup d "build_number" = Some (PInt 0) ->
  call_tool upstream str_lower py_repr status_error_message strftime_local
            JENKINS_URL JENKINS_USERNAME JENKINS_API_TOKEN "get_build_console" (PDict d) log
  = (log, Ok (text_content "❌ Error: Se requieren job_name y build_number"))
  /\ forall d', dict_lookup d' "build_number" = None ->
       call_tool upstream str_lower py_repr status_error_message strftime_local
                 JENKINS_URL JENKINS_USERNAME JENKINS_API_TOKEN "get_build_console" (PDict d') log
       = call_tool upstream str_lower py_repr status_error_message strftime_local
                   JENKINS_URL JENKINS_USERNAME JENKINS_API_TOKEN "get_build_console" (PDict d) log.
Proof.
  intro Hzero.
  assert (H0 : call_tool upstream str_lower py_repr status_error_message strftime_local
                 JENKINS_URL JENKINS_USERNAME JENKINS_API_TOKEN "get_build_console" (PDict d) log
               = (log, Ok (text_content "❌ Error: Se requieren job_name y build_number"))).
  { unfold call_tool; erewrite try_except_ok; [reflexivity|].
    tool_branch; unfold bind, lift; cbn [py_get].
    rewrite (dict_get_some _ _ _ _ Hzero).
    cbn [truthy Z.eqb negb]; rewrite andb_false_r; reflexivity. }
  split; [exact H0|].
  intros d' Hnone; rewrite H0.
  run_validation Hnone.
Qed.

(** ** Errors at the boundary of the dispatcher *)

Ltac step_body H :=
  repeat match type of H with
         | (_, Ok _) = (_, Ok _) => inversion H; subst; clear H; eexists; reflexivity
         | (_, Raise _) = (_, Ok _) => discriminate H
         | context [match ?x with _ => _ end] => destruct x
         | context [if ?x then _ else _] => destruct x
         end.

Lemma call_tool_body_text name arguments log log' contents :
  call_tool_body upstream str_lower py_repr status_error_message strftime_local
                 JENKINS_URL JENKINS_USERNAME JENKINS_API_TOKEN name arguments log
  = (log', Ok contents) ->
  exists txt, contents = text_content txt.
Proof.
  unfold call_tool_body, bind, lift, ret; intro H.
  step_body H.
Qed.

(** C2, amended: neither entry point lets an exception out.  [call_tool]
    returns what its body returns, and when the body raises it returns one
    text that starts with the failure marker, followed by the message of the
    exception and, when the message contains ["Timeout"], by the VPN tip.
    [read_resource] returns what its body returns, and when the body raises
    it returns the JSON object whose only key, ["error"], holds the message
    of the exception. *)
Theorem dispatcher_catches_errors name arguments uri log :
  (let body := call_tool_body upstream str_lower py_repr status_error_message strftime_local
                 JENKINS_URL JENKINS_USERNAME JENKINS_API_TOKEN name arguments log in
   exists payload,
     call_tool upstream str_lower py_repr status_error_message strftime_local
               JENKINS_URL JENKINS_USERNAME JENKINS_API_TOKEN name arguments log
     = (fst body, Ok payload) /\
     (exists txt, payload = text_content txt) /\
     (forall contents, snd body = Ok contents -> payload = contents) /\
     (forall e, snd body = Raise e ->
        let error_msg := str_exn e in
        let shown := if Str.contains "Timeout" error_msg
                     then error_msg ++ vpn_tip else error_msg in
        payload = text_content ("❌ Error: " ++ shown)
        /\ String.prefix "❌ Error: " ("❌ Error: " ++ shown) = true)) /\
  (let body := read_resource_body upstream status_error_message
                 JENKINS_URL JENKINS_USERNAME JENKINS_API_TOKEN uri log in
   exists payload,
     read_resource upstream status_error_message
                   JENKINS_URL JENKINS_USERNAME JENKINS_API_TOKEN uri log
     = (fst body, Ok payload) /\
     (forall contents, snd body = Ok contents -> payload = contents) /\
     (forall e, snd body = Raise e ->
        payload = Json.dumps true (PDict [("error", PStr (str_exn e))]))).
Proof.
  split; cbv zeta.
  - unfold call_tool, try_except.
    destruct (call_tool_body _ _ _ _ _ _ _ _ name arguments log) as [log' [contents|e]] eqn:E.
    + exists contents; split; [reflexivity|].
      split; [exact (call_tool_body_text _ _ _ _ _ E)|].
      split; [intros c H; inversion H; reflexivity|intros e H; discriminate H].
    + eexists; split; [reflexivity|].
      split; [eexists; reflexivity|].
      split; [intros c H; discriminate H|].
      intros e' H; inversion H; subst e'; split; [reflexivity|].
      apply prefix_iff; eexists; reflexivity.
  - unfold read_resource, try_except.
    destruct (read_resource_body _ _ _ _ _ uri log) as [log' [contents|e]].
    + exists contents; split; [reflexivity|].
      split; [intros c H; inversion H; reflexivity|intros e H; discriminate H].
    + eexists; split; [reflexivity|].
      split; [intros c H; discriminate H|].
      intros e' H; inversion H; reflexivity.
Qed.

End Properties.

(** * Further properties of the program *)

(** ** JenkinsManager.__init__ *)

Lemma append_nil_r (s : string) : s ++ "" = s.
Proof. induction s as [|c s IH]; cbn; [reflexivity|rewrite IH; reflexivity]. Qed.

Lemma rstrip_slash_shape (s : string) :
  (exists k, s = Str.rstrip_slash s ++ slashes k) /\
  (forall t, Str.rstrip_slash s <> t ++ "/").
Proof.
  induction s as [|c s [[k Hk] Hend]]; cbn [Str.rstrip_slash].
  - split; [exists O; reflexivity|intros [|c t]; discriminate].
  - destruct (Str.rstrip_slash s) as [|c' r] eqn:E.
    + cbn in Hk; subst s.
      destruct (Ascii.eqb c "/") eqn:Ec.
      * apply Ascii.eqb_eq in Ec; subst c.
        split; [exists (S k); reflexivity|intros [|c t]; discriminate].
      * split; [exists k; reflexivity|].
        intros [|c0 t] H; cbn in H.
        -- inversion H; subst c; rewrite Ascii.eqb_refl in Ec; discriminate.
        -- inversion H as [[Hc Ht]]; destruct t; discriminate Ht.
    + split; [exists k; cbn; rewrite Hk at 1; reflexivity|].
      intros [|c0 t] H; cbn in H; [discriminate H|].
      inversion H as [[Hc Ht]]; exact (Hend t Ht).
Qed.

(** X1: [__init__] stores the URL without its trailing slashes: what is cut
    off are slashes only, the stored URL does not end with a slash, and a
    URL that is already stripped is stored as it is. *)
Theorem init_strips_trailing_slashes (url username api_token : string) :
  let self := JenkinsManager_init url username api_token in
  (exists k, url = jenkins_url self ++ slashes k) /\
  (forall t, jenkins_url self <> t ++ "/") /\
  jenkins_url (JenkinsManager_init (jenkins_url self) username api_token) = jenkins_url self.
Proof.
  cbn [JenkinsManager_init jenkins_url].
  destruct (rstrip_slash_shape url) as [Hcut Hend].
  split; [exact Hcut|split; [exact Hend|]].
  destruct (rstrip_slash_shape (Str.rstrip_slash url)) as [[k Hk] _].
  destruct k as [|k]; [cbn in Hk; rewrite append_nil_r in Hk; symmetry; exact Hk|].
  exfalso.
  assert (Hlast : forall j u, exists t, u ++ slashes (S j) = t ++ "/").
  { induction j as [|j IH]; intro u; [exists u; reflexivity|].
    destruct (IH (u ++ "/")) as [t Ht]; exists t; rewrite <- Ht.
    clear; induction u as [|c u IHu]; cbn; [reflexivity|].
    cbn in IHu; rewrite IHu; reflexivity. }
  destruct (Hlast k (Str.rstrip_slash (Str.rstrip_slash url))) as [t Ht].
  apply (Hend t); rewrite Hk at 1; exact Ht.
Qed.

Lemma index_of_char_of (x : Base64.sextet) :
  Base64Reader.index_of (Base64.char_of x) = Some x.
Proof.
  destruct x as [[[[[b5 b4] b3] b2] b1] b0].
  destruct b5, b4, b3, b2, b1, b0; vm_compute; reflexivity.
Qed.

Lemma char_of_not_pad (x : Base64.sextet) :
  Ascii.eqb (Base64.char_of x) Base64.pad = false.
Proof.
  destruct x as [[[[[b5 b4] b3] b2] b1] b0].
  destruct b5, b4, b3, b2, b1, b0; vm_compute; reflexivity.
Qed.

Lemma byte1_of (a b : ascii) :
  Base64Reader.byte1 (Base64.first_of a) (Base64.second_of a b) = a.
Proof. destruct a, b; reflexivity. Qed.

Lemma byte2_of (a b c : ascii) :
  Base64Reader.byte2 (Base64.second_of a b) (Base64.third_of b c) = b.
Proof. destruct a, b, c; reflexivity. Qed.

Lemma byte3_of (b c : ascii) :
  Base64Reader.byte3 (Base64.third_of b c) (Base64.fourth_of c) = c.
Proof. destruct b, c; reflexivity. Qed.

Lemma b64decode_b64encode (s : string) :
  Base64Reader.b64decode (Base64.b64encode s) = Some s.
Proof.
  assert (H : Base64Reader.b64decode (Base64.b64encode s) = Some s /\
              (forall a, Base64Reader.b64decode (Base64.b64encode (String a s))
                         = Some (String a s)) /\
              (forall a b, Base64Reader.b64decode (Base64.b64encode (String a (String b s)))
                           = Some (String a (String b s)))).
  { induction s as [|c s (IH0 & IH1 & IH2)].
    - split; [reflexivity|split].
      + intro a; cbn [Base64.b64encode Base64Reader.b64decode].
        rewrite !index_of_char_of, Ascii.eqb_refl, byte1_of; reflexivity.
      + intros a b; cbn [Base64.b64encode Base64Reader.b64decode].
        rewrite !index_of_char_of, char_of_not_pad, Ascii.eqb_refl, byte1_of, byte2_of.
        reflexivity.
    - split; [apply IH1|split; [intro a; apply IH2|]].
      intros a b.
      change (Base64.b64encode (String a (String b (String c s))))
        with (String (Base64.char_of (Base64.first_of a))
                (String (Base64.char_of (Base64.second_of a b))
                   (String (Base64.char_of (Base64.third_of b c))
                      (String (Base64.char_of (Base64.fourth_of c)) (Base64.b64encode s))))).
      cbn [Base64Reader.b64decode].
      rewrite !index_of_char_of, !char_of_not_pad, IH0, byte1_of, byte2_of, byte3_of.
      reflexivity. }
  apply H.
Qed.

Lemma is_ascii_false_iff (s : string) :
  Base64.is_ascii s = false <->
  exists pre c suf, s = pre ++ String c suf /\ (128 <= N_of_ascii c)%N.
Proof.
  induction s as [|c s IH]; cbn [Base64.is_ascii].
  - split; [discriminate|intros (pre & c & suf & H & _); destruct pre; discriminate H].
  - rewrite andb_false_iff, IH, N.ltb_ge; split.
    + intros [H|(pre & c' & suf & -> & H)].
      * exists "", c, s; split; [reflexivity|exact H].
      * exists (String c pre), c', suf; split; [reflexivity|exact H].
    + intros ([|c0 pre] & c' & suf & H & Hc); cbn in H; inversion H; subst.
      * left; exact Hc.
      * right; exists pre, c', suf; split; [reflexivity|exact Hc].
Qed.

(** X2: when the user name and the token are ASCII, [__init__] builds the
    header [Authorization: Basic <text>] whose text is the base64 of
    [username:token], so that reading the text gives the credentials back,
    together with the JSON content type; when one of them holds a byte
    outside ASCII, the encoding raises and no header is built. *)
Theorem headers_carry_the_credentials (username api_token : string) :
  (Base64.is_ascii (username ++ ":" ++ api_token) = true ->
   exists auth_b64,
     JenkinsManager_headers username api_token
     = Ok [("Authorization", "Basic " ++ auth_b64); ("Content-Type", "application/json")]
     /\ Base64Reader.b64decode auth_b64 = Some (username ++ ":" ++ api_token)) /\
  ((exists pre c suf, username ++ ":" ++ api_token = pre ++ String c suf
                      /\ (128 <= N_of_ascii c)%N) ->
   exists e, JenkinsManager_headers username api_token = Raise e).
Proof.
  unfold JenkinsManager_headers, Base64.encode_ascii; split.
  - intro H; rewrite H; cbn [rbind].
    eexists; split; [reflexivity|apply b64decode_b64encode].
  - intro H; apply is_ascii_false_iff in H; rewrite H; eexists; reflexivity.
Qed.

Section Further.

Variable upstream : request -> outcome.
Variable str_lower : string -> string.
Variable py_repr : pyval -> string.
Variable status_error_message : Z -> string -> string.
Variable strftime_local : Z -> result string.
Variables JENKINS_URL JENKINS_USERNAME JENKINS_API_TOKEN : string.

(** ** The methods of the client *)

Ltac get_succeeds Hresp Hok :=
  erewrite bind_ok by (apply send_responded; exact Hresp);
  erewrite bind_ok by (apply raise_for_status_success; exact Hok).

Ltac get_fails Hresp Hbad :=
  erewrite bind_ok by (apply send_responded; exact Hresp);
  erewrite bind_raise by (apply raise_for_status_error; exact Hbad);
  reflexivity.

Lemma map_result_jobs (ds : list dict) :
  exists jobs,
    map_result job_of_data (map PDict ds) = Ok jobs /\ Forall2 job_defaults ds jobs.
Proof.
  induction ds as [|d ds [jobs [IH1 IH2]]].
  - exists []; split; [reflexivity|constructor].
  - eexists; split.
    + cbn [map map_result]; rewrite IH1; cbn; reflexivity.
    + constructor; [|exact IH2].
      repeat split; cbn; try (intro H; apply dict_get_none; exact H);
        intros v H; apply dict_get_some; exact H.
Qed.

(** X3: [get_jobs] builds one record for each [dict] of the upstream list,
    in its order; a missing [name], [url] or [color] becomes the empty
    string, a missing [buildable] becomes [False], a missing [lastBuild]
    becomes [None], and a field that is there is copied. *)
Theorem get_jobs_defaults self r data jobs_data log :
  upstream (jobs_request self) = Responded r ->
  is_success r ->
  httpx.json r = Ok (PDict data) ->
  dict_get data "jobs" (PList []) = PList (map PDict jobs_data) ->
  exists jobs,
    get_jobs upstream status_error_message self log
    = ((log ++ [jobs_request self])%list, Ok jobs)
    /\ Forall2 job_defaults jobs_data jobs
    /\ length jobs = length jobs_data.
Proof.
  intros Hresp Hok Hjson Hjobs.
  destruct (map_result_jobs jobs_data) as [jobs [Hmap Hall]].
  exists jobs; split; [|split; [exact Hall|symmetry; exact (Forall2_length Hall)]].
  unfold get_jobs; get_succeeds Hresp Hok.
  unfold bind, lift; rewrite Hjson; cbn [py_get]; rewrite Hjobs; cbn [py_iter].
  rewrite Hmap; reflexivity.
Qed.

(** X4: the resource [jenkins://queue] is the JSON text of the [items] of
    the upstream body, as they came; when the body has no [items] the
    resource is the empty list. *)
Theorem queue_resource_passes_items r data log :
  let self := jenkins_manager JENKINS_URL JENKINS_USERNAME JENKINS_API_TOKEN in
  upstream (queue_request self) = Responded r ->
  is_success r ->
  httpx.json r = Ok (PDict data) ->
  (forall items, dict_lookup data "items" = Some items ->
     read_resource upstream status_error_message
                   JENKINS_URL JENKINS_USERNAME JENKINS_API_TOKEN "jenkins://queue" log
     = ((log ++ [queue_request self])%list, Ok (Json.dumps false items))) /\
  (dict_lookup data "items" = None ->
     read_resource upstream status_error_message
                   JENKINS_URL JENKINS_USERNAME JENKINS_API_TOKEN "jenkins://queue" log
     = ((log ++ [queue_request self])%list, Ok "[]")).
Proof.
  intros self Hresp Hok Hjson.
  assert (Hrun : forall items, dict_get data "items" (PList []) = items ->
            read_resource upstream status_error_message
                          JENKINS_URL JENKINS_USERNAME JENKINS_API_TOKEN "jenkins://queue" log
            = ((log ++ [queue_request self])%list, Ok (Json.dumps false items))).
  { intros items Hitems.
    unfold read_resource, read_resource_body; cbn [String.eqb Ascii.eqb Bool.eqb].
    erewrite try_except_ok; [reflexivity|].
    erewrite bind_ok; [reflexivity|].
    unfold get_queue_info; get_succeeds Hresp Hok.
    unfold bind, lift; rewrite Hjson; cbn [py_get]; rewrite Hitems; reflexivity. }
  split.
  - intros items H; apply Hrun, dict_get_some, H.
  - intro H; rewrite (Hrun (PList [])) by (apply dict_get_none, H); reflexivity.
Qed.

(** X5: when the server answers with a status outside 2xx, each of the
    methods that read from the server raises the [HTTPStatusError] of that
    status after its one call, whatever the body holds. *)
Theorem reading_methods_raise_on_status self job_name build_number limit lines r log :
  ~ is_success r ->
  let raises (A : Type) (run : list request * result A) (req : request) :=
    upstream req = Responded r ->
    run = ((log ++ [req])%list,
           Raise (HTTPStatusError (httpx.status_code r)
                    (status_error_message (httpx.status_code r) (req_url req)))) in
  raises _ (get_jobs upstream status_error_message self log) (jobs_request self) /\
  raises _ (get_job_info upstream py_repr status_error_message self job_name log)
           (job_info_request py_repr self job_name) /\
  raises _ (get_job_builds upstream py_repr status_error_message self job_name limit log)
           (builds_request py_repr self job_name limit) /\
  raises _ (get_build_info upstream py_repr status_error_message self job_name build_number log)
           (build_info_request py_repr self job_name build_number) /\
  raises _ (get_build_console upstream py_repr status_error_message self job_name
              build_number lines log)
           (console_request py_repr self job_name build_number) /\
  raises _ (get_queue_info upstream status_error_message self log) (queue_request self).
Proof.
  intros Hbad raises; subst raises; cbv beta.
  repeat split; intro Hresp.
  - unfold get_jobs; get_fails Hresp Hbad.
  - unfold get_job_info; get_fails Hresp Hbad.
  - unfold get_job_builds; get_fails Hresp Hbad.
  - unfold get_build_info; get_fails Hresp Hbad.
  - unfold get_build_console; get_fails Hresp Hbad.
  - unfold get_queue_info; get_fails Hresp Hbad.
Qed.

(** ** The tools *)

Ltac tool_body := unfold call_tool_body; cbn [String.eqb Ascii.eqb Bool.eqb].

(** X6: [trigger_build] does not raise on the status of the answer: for
    every answer of the server the tool returns a text, the success text
    (with the parameters when there are some) for 200 and 201 and the
    failure text, which names the job and not the status, for every other
    status. *)
Theorem trigger_build_tool_reports d job r log :
  let self := jenkins_manager JENKINS_URL JENKINS_USERNAME JENKINS_API_TOKEN in
  let parameters := dict_get d "parameters" (PDict []) in
  let req := if truthy parameters
             then parameterized_build_request py_repr self job parameters
             else simple_build_request py_repr self job in
  dict_lookup d "job_name" = Some job ->
  truthy job = true ->
  upstream req = Responded r ->
  call_tool upstream str_lower py_repr status_error_message strftime_local
            JENKINS_URL JENKINS_USERNAME JENKINS_API_TOKEN "trigger_build" (PDict d) log
  = ((log ++ [req])%list,
     Ok (text_content
           (if (httpx.status_code r =? 200) || (httpx.status_code r =? 201)
            then "🚀 Build ejecutado exitosamente para '" ++ py_str py_repr job ++ "'"
                 ++ (if truthy parameters
                     then " con parámetros: " ++ py_str py_repr parameters else "")
            else "❌ Error al ejecutar build para '" ++ py_str py_repr job ++ "'"))).
Proof.
  intros self parameters req Hjob Htruthy Hresp.
  destruct (trigger_build_run upstream py_repr self job parameters log) as [Hlog Hres].
  specialize (Hres r Hresp); fold req in Hlog.
  subst self.
  unfold call_tool, try_except; tool_body.
  unfold bind at 1, lift at 1; cbn [py_get]; rewrite (dict_get_some _ _ _ _ Hjob).
  unfold bind at 1, lift at 1; fold parameters.
  rewrite Htruthy; cbn [negb].
  unfold bind.
  destruct (trigger_build upstream py_repr _ job parameters log) as [log' res].
  cbn [fst snd] in Hlog, Hres; subst log' res.
  destruct ((httpx.status_code r =? 200) || (httpx.status_code r =? 201)); reflexivity.
Qed.

(** X7: an argument that the schema of a tool requires and that is there
    with a value that Python takes for false (the empty string, [0],
    [False], [None], an empty list or [dict]) is handled as a missing one:
    the tool returns the validation message and the client makes no call. *)
Theorem falsy_required_argument tool arg d v log :
  In tool list_tools ->
  requires tool arg ->
  dict_lookup d arg = Some v ->
  truthy v = false ->
  exists msg,
    call_tool upstream str_lower py_repr status_error_message strftime_local
              JENKINS_URL JENKINS_USERNAME JENKINS_API_TOKEN (types.name tool) (PDict d) log
    = (log, Ok (text_content msg))
    /\ String.prefix "❌ Error: Se requiere" msg = true.
Proof.
  intros Htool (required & Hschema & Harg) Hsome Hfalsy.
  unfold list_tools in Htool; cbn [In] in Htool.
  repeat (destruct Htool as [Htool|Htool]; [subst tool|]); try contradiction;
    cbn in Hschema; inversion Hschema; subst required; clear Hschema;
    cbn [In] in Harg;
    repeat (destruct Harg as [Harg|Harg]; [inversion Harg; subst arg; clear Harg|]);
    try contradiction.
  all: cbn [types.name]; eexists; split;
    [unfold call_tool; erewrite try_except_ok; [reflexivity|];
     tool_body; unfold bind, lift; cbn [py_get];
     rewrite ?(dict_get_some _ _ _ _ Hsome), ?Hfalsy;
     cbn [negb andb]; rewrite ?andb_false_r; reflexivity
    |reflexivity].
Qed.

(** X8: a [filter] that is not a string makes the [get_jobs] tool return
    the error text of the missing method [lower], and the client makes no
    call. *)
Theorem non_string_filter d v log :
  dict_lookup d "filter" = Some v ->
  (forall s, v <> PStr s) ->
  call_tool upstream str_lower py_repr status_error_message strftime_local
            JENKINS_URL JENKINS_USERNAME JENKINS_API_TOKEN "get_jobs" (PDict d) log
  = (log, Ok (text_content ("❌ Error: '" ++ type_name v
                            ++ "' object has no attribute 'lower'"))).
Proof.
  intros Hsome Hnot.
  destruct v as [| | |s| |]; try (exfalso; exact (Hnot s eq_refl)).
  all: unfold call_tool; erewrite try_except_raise;
    [|tool_body; unfold bind at 1, lift at 1; cbn [py_get];
      rewrite (dict_get_some _ _ _ _ Hsome); reflexivity];
    reflexivity.
Qed.

Lemma eqb_false_of_neq (a b : string) : a <> b -> String.eqb a b = false.
Proof. intro H; apply String.eqb_neq; exact H. Qed.

Ltac known_tool H :=
  unfold call_tool, try_except, call_tool_body, call_tool_handler, render_job_info,
    rbind, bind, lift, ret, text_content in H;
  cbn [String.eqb Ascii.eqb Bool.eqb] in H;
  repeat match type of H with
         | (_, Ok [types.mk_TextContent _ _]) = (_, Ok [types.mk_TextContent _ _]) =>
             inversion H; subst; clear H; reflexivity
         | (_, Raise _) = (_, Ok _) => discriminate H
         | context [match ?x with _ => _ end] =>
             lazymatch x with
             | context [match _ with _ => _ end] => fail
             | _ => destruct x
             end
         end.

(** X9: the tools that [call_tool] runs are the tools of [list_tools]: a
    name that is not in the list gets the text of the unknown tool and the
    client makes no call, and a name of the list never gets that text. *)
Theorem tools_of_the_catalog name arguments log :
  ((forall tool, In tool list_tools -> types.name tool <> name) ->
   call_tool upstream str_lower py_repr status_error_message strftime_local
             JENKINS_URL JENKINS_USERNAME JENKINS_API_TOKEN name arguments log
   = (log, Ok (text_content ("❌ Herramienta desconocida: " ++ name)))) /\
  ((exists tool, In tool list_tools /\ types.name tool = name) ->
   forall log' txt,
     call_tool upstream str_lower py_repr status_error_message strftime_local
               JENKINS_URL JENKINS_USERNAME JENKINS_API_TOKEN name arguments log
     = (log', Ok (text_content txt)) ->
     String.prefix "❌ Herramienta desconocida" txt = false).
Proof.
  split.
  - intro Hnot.
    assert (Hne : forall known, In known (map types.name list_tools) ->
                                String.eqb name known = false).
    { intros known Hin; apply in_map_iff in Hin; destruct Hin as (tool & <- & Hin).
      apply eqb_false_of_neq; intro Heq; exact (Hnot tool Hin (eq_sym Heq)). }
    cbn [map list_tools types.name] in Hne.
    unfold call_tool; erewrite try_except_ok; [reflexivity|].
    unfold call_tool_body.
    rewrite !Hne by (cbn [In]; tauto).
    reflexivity.
  - intros (tool & Htool & <-) log' txt H.
    unfold list_tools in Htool; cbn [In] in Htool.
    repeat (destruct Htool as [Htool|Htool]; [subst tool|]); try contradiction;
      cbn [types.name] in H.
    all: known_tool H.
Qed.

(** ** The number of calls *)

Lemma calls_ret {A : Type} n (a : A) : calls_at_most n (ret a).
Proof. intro log; exists []; cbn; rewrite app_nil_r; split; [reflexivity|lia]. Qed.

Lemma calls_raise {A : Type} n e : calls_at_most n (@raise A e).
Proof. intro log; exists []; cbn; rewrite app_nil_r; split; [reflexivity|lia]. Qed.

Lemma calls_lift {A : Type} n (r : result A) : calls_at_most n (lift r).
Proof. intro log; exists []; cbn; rewrite app_nil_r; split; [reflexivity|lia]. Qed.

Lemma calls_send n req : calls_at_most (S n) (send upstream req).
Proof. intro log; exists [req]; cbn; split; [reflexivity|lia]. Qed.

Lemma calls_bind {A B : Type} k n (m : M A) (f : A -> M B) :
  calls_at_most k m -> (forall a, calls_at_most n (f a)) -> calls_at_most (k + n) (bind m f).
Proof.
  intros Hm Hf log; destruct (Hm log) as (l1 & H1 & L1).
  unfold bind; destruct (m log) as [log1 [a|e]]; cbn [fst] in H1; subst log1.
  - destruct (Hf a (log ++ l1)%list) as (l2 & H2 & L2).
    exists (l1 ++ l2)%list; rewrite H2, app_assoc, length_app; split; [reflexivity|lia].
  - exists l1; split; [reflexivity|lia].
Qed.

Lemma calls_try {A : Type} k n (m : M A) (h : exn -> M A) :
  calls_at_most k m -> (forall e, calls_at_most n (h e)) ->
  calls_at_most (k + n) (try_except m h).
Proof.
  intros Hm Hh log; destruct (Hm log) as (l1 & H1 & L1).
  unfold try_except; destruct (m log) as [log1 [a|e]]; cbn [fst] in H1; subst log1.
  - exists l1; split; [reflexivity|lia].
  - destruct (Hh e (log ++ l1)%list) as (l2 & H2 & L2).
    exists (l1 ++ l2)%list; rewrite H2, app_assoc, length_app; split; [reflexivity|lia].
Qed.

Ltac no_call :=
  cbv zeta;
  lazymatch goal with
  | |- calls_at_most ?n (bind ?m ?f) =>
      apply (calls_bind 0 n m f); [no_call|intro; no_call]
  | |- calls_at_most _ (if ?b then _ else _) => destruct b; no_call
  | |- calls_at_most _ (ret _) => apply calls_ret
  | |- calls_at_most _ (raise _) => apply calls_raise
  | |- calls_at_most _ (lift _) => apply calls_lift
  | |- calls_at_most _ (raise_for_status _ _ _) => unfold raise_for_status; no_call
  end.

Ltac one_send :=
  cbv zeta;
  lazymatch goal with
  | |- calls_at_most 1 (bind ?m ?f) =>
      apply (calls_bind 1 0 m f); [one_send|intro; no_call]
  | |- calls_at_most 1 (if ?b then _ else _) => destruct b; one_send
  | |- calls_at_most 1 (client_get _ _) => apply calls_send
  | |- calls_at_most 1 (client_post _ _ _) => apply calls_send
  end.

Lemma calls_test_connection self :
  calls_at_most 1 (test_connection upstream status_error_message self).
Proof.
  unfold test_connection; apply (calls_try 1 0); [one_send|].
  intro e; destruct e; try apply calls_raise.
  destruct (status =? 401); [apply calls_raise|].
  destruct (status =? 403); apply calls_raise.
Qed.

Lemma calls_get_jobs self : calls_at_most 1 (get_jobs upstream status_error_message self).
Proof. unfold get_jobs; one_send. Qed.

Lemma calls_get_job_info self job_name :
  calls_at_most 1 (get_job_info upstream py_repr status_error_message self job_name).
Proof. unfold get_job_info; one_send. Qed.

Lemma calls_get_job_builds self job_name limit :
  calls_at_most 1 (get_job_builds upstream py_repr status_error_message self job_name limit).
Proof. unfold get_job_builds; one_send. Qed.

Lemma calls_get_build_info self job_name build_number :
  calls_at_most 1
    (get_build_info upstream py_repr status_error_message self job_name build_number).
Proof. unfold get_build_info; one_send. Qed.

Lemma calls_get_build_console self job_name build_number lines :
  calls_at_most 1
    (get_build_console upstream py_repr status_error_message self job_name build_number lines).
Proof. unfold get_build_console; one_send. Qed.

Lemma calls_trigger_build self job_name parameters :
  calls_at_most 1 (trigger_build upstream py_repr self job_name parameters).
Proof. unfold trigger_build; one_send. Qed.

Lemma calls_get_queue_info self :
  calls_at_most 1 (get_queue_info upstream status_error_message self).
Proof. unfold get_queue_info; one_send. Qed.

Ltac one_call :=
  cbv zeta;
  lazymatch goal with
  | |- calls_at_most 1 (bind ?m ?f) =>
      first [ apply (calls_bind 0 1 m f); [solve [no_call]|intro; one_call]
            | apply (calls_bind 1 0 m f);
              [first [ apply calls_test_connection | apply calls_get_jobs
                     | apply calls_get_job_info | apply calls_get_job_builds
                     | apply calls_get_build_console | apply calls_trigger_build
                     | apply calls_get_queue_info ]
              |intro; no_call] ]
  | |- calls_at_most 1 (if ?b then _ else _) => destruct b; one_call
  | |- _ => no_call
  end.

(** X10: one call of [call_tool] or of [read_resource], and so of every
    method of the client, makes at most one call to the server, and the
    calls that were made before stay in the log. *)
Theorem one_call_per_request name arguments uri self job_name build_number limit lines :
  calls_at_most 1 (call_tool upstream str_lower py_repr status_error_message strftime_local
                             JENKINS_URL JENKINS_USERNAME JENKINS_API_TOKEN name arguments) /\
  calls_at_most 1 (read_resource upstream status_error_message
                                 JENKINS_URL JENKINS_USERNAME JENKINS_API_TOKEN uri) /\
  calls_at_most 1 (test_connection upstream status_error_message self) /\
  calls_at_most 1 (get_jobs upstream status_error_message self) /\
  calls_at_most 1 (get_job_info upstream py_repr status_error_message self job_name) /\
  calls_at_most 1 (get_job_builds upstream py_repr status_error_message self job_name limit) /\
  calls_at_most 1 (get_build_info upstream py_repr status_error_message self job_name
                                  build_number) /\
  calls_at_most 1 (get_build_console upstream py_repr status_error_message self job_name
                                     build_number lines) /\
  calls_at_most 1 (trigger_build upstream py_repr self job_name limit) /\
  calls_at_most 1 (get_queue_info upstream status_error_message self).
Proof.
  split; [|split].
  - unfold call_tool; apply (calls_try 1 0).
    + unfold call_tool_body; one_call.
    + intro e; unfold call_tool_handler; no_call.
  - unfold read_resource; apply (calls_try 1 0).
    + unfold read_resource_body; one_call.
    + intro e; unfold read_resource_handler; no_call.
  - repeat split;
      [ apply calls_test_connection | apply calls_get_jobs | apply calls_get_job_info
      | apply calls_get_job_builds | apply calls_get_build_info
      | apply calls_get_build_console | apply calls_trigger_build
      | apply calls_get_queue_info ].
Qed.

(** ** The resources *)

Ltac innermost_goal :=
  repeat match goal with
         | |- context [match ?x with _ => _ end] =>
             lazymatch x with
             | context [match _ with _ => _ end] => fail
             | _ => destruct x
             end
         end.

Lemma get_jobs_one_call self log :
  fst (get_jobs upstream status_error_message self log) = (log ++ [jobs_request self])%list.
Proof.
  unfold get_jobs, bind, client_get, send, raise_for_status, lift, ret, raise; cbv zeta.
  fold (jobs_request self); innermost_goal; reflexivity.
Qed.

Lemma get_queue_info_one_call self log :
  fst (get_queue_info upstream status_error_message self log)
  = (log ++ [queue_request self])%list.
Proof.
  unfold get_queue_info, bind, client_get, send, raise_for_status, lift, ret, raise; cbv zeta.
  fold (queue_request self); innermost_goal; reflexivity.
Qed.

(** X11: the resources that [read_resource] serves are the resources of
    [list_resources]: a URI that is not in the list gets the JSON object
    with the error [Recurso no encontrado] and the client makes no call,
    and a URI of the list makes exactly one GET. *)
Theorem resources_of_the_catalog uri log :
  ((forall res, In res list_resources -> Resource.uri res <> uri) ->
   read_resource upstream status_error_message
                 JENKINS_URL JENKINS_USERNAME JENKINS_API_TOKEN uri log
   = (log, Ok (Json.dumps true
                 (PDict [("error", PStr ("Recurso no encontrado: " ++ uri))])))) /\
  ((exists res, In res list_resources /\ Resource.uri res = uri) ->
   exists req,
     req_method req = GET /\
     fst (read_resource upstream status_error_message
                        JENKINS_URL JENKINS_USERNAME JENKINS_API_TOKEN uri log)
     = (log ++ [req])%list).
Proof.
  clear str_lower.
  split.
  - intro Hnot.
    assert (Hne : forall known, In known (map Resource.uri list_resources) ->
                                String.eqb uri known = false).
    { intros known Hin; apply in_map_iff in Hin; destruct Hin as (res & <- & Hin).
      apply eqb_false_of_neq; intro Heq; exact (Hnot res Hin (eq_sym Heq)). }
    cbn [map list_resources Resource.uri] in Hne.
    unfold read_resource, try_except, read_resource_body.
    rewrite !Hne by (cbn [In]; tauto).
    reflexivity.
  - intros (res & Hres & <-).
    unfold list_resources in Hres; cbn [In] in Hres.
    repeat (destruct Hres as [Hres|Hres]; [subst res|]); try contradiction;
      cbn [Resource.uri];
      unfold read_resource, try_except, read_resource_body;
      cbn [String.eqb Ascii.eqb Bool.eqb]; unfold bind.
    + pose proof (get_jobs_one_call
                    (jenkins_manager JENKINS_URL JENKINS_USERNAME JENKINS_API_TOKEN) log) as H.
      destruct (get_jobs _ _ _ log) as [log1 [jobs|e]]; cbn [fst] in H; subst log1;
        eexists; (split; [|reflexivity]); reflexivity.
    + pose proof (get_queue_info_one_call
                    (jenkins_manager JENKINS_URL JENKINS_USERNAME JENKINS_API_TOKEN) log) as H.
      destruct (get_queue_info _ _ _ log) as [log1 [items|e]]; cbn [fst] in H; subst log1;
        eexists; (split; [|reflexivity]); reflexivity.
    + pose proof (get_jobs_one_call
                    (jenkins_manager JENKINS_URL JENKINS_USERNAME JENKINS_API_TOKEN) log) as H.
      destruct (get_jobs _ _ _ log) as [log1 [jobs|e]]; cbn [fst] in H; subst log1.
      * unfold lift; destruct (resource_failed_jobs jobs);
          eexists; (split; [|reflexivity]); reflexivity.
      * eexists; (split; [|reflexivity]); reflexivity.
Qed.

(** ** More on get_build_console *)

Lemma skipn_min {A : Type} (k : Z) (l : list A) :
  0 <= k -> skipn (Z.to_nat (Z.min k (Z.of_nat (length l)))) l = skipn (Z.to_nat k) l.
Proof.
  intro Hk; destruct (Z.le_gt_cases k (Z.of_nat (length l))) as [H|H].
  - rewrite Z.min_l by exact H; reflexivity.
  - rewrite Z.min_r by lia; rewrite !skipn_all2 by lia; reflexivity.
Qed.

(** X12: when [lines] is at least the number of lines, [get_build_console]
    returns the whole text; when [lines] is negative, [-k], it drops the
    first [k] lines and returns the rest; and when [lines] is not a number,
    it raises a [TypeError] after the call to the server was made. *)
Theorem get_build_console_other_lines self job_name build_number r log :
  upstream (console_request py_repr self job_name build_number) = Responded r ->
  is_success r ->
  let lines_list := Str.split Str.newline (httpx.text r) in
  let run lines :=
    get_build_console upstream py_repr status_error_message self job_name build_number
                      lines log in
  let logged := (log ++ [console_request py_repr self job_name build_number])%list in
  (forall n, Z.of_nat (length lines_list) <= n ->
     run (PInt n) = (logged, Ok (httpx.text r))) /\
  (forall k, 1 <= k ->
     run (PInt (- k)) = (logged, Ok (Str.join Str.nl (skipn (Z.to_nat k) lines_list)))) /\
  (forall lines, (forall z, lines <> PInt z) -> (forall b, lines <> PBool b) ->
     exists msg, run lines = (logged, Raise (TypeError msg))).
Proof.
  intros Hresp Hok lines_list run logged; subst run logged; cbv beta.
  split; [|split].
  - intros n Hn.
    assert (Hpos : (0 < length lines_list)%nat).
    { subst lines_list; destruct (Str.split Str.newline (httpx.text r)) eqn:E;
        [exfalso; exact (split_not_nil _ _ E)|cbn; lia]. }
    rewrite (get_build_console_run upstream py_repr status_error_message self job_name
               build_number (PInt n) r (- n) log Hresp Hok eq_refl).
    fold lines_list.
    replace (py_slice_from (- n) lines_list) with lines_list.
    + subst lines_list; rewrite join_split; reflexivity.
    + unfold py_slice_from.
      destruct (- n <? 0) eqn:E; [|apply Z.ltb_ge in E; lia].
      replace (Z.to_nat (Z.max (- n + Z.of_nat (length lines_list)) 0)) with O by lia.
      reflexivity.
  - intros k Hk.
    rewrite (get_build_console_run upstream py_repr status_error_message self job_name
               build_number (PInt (- k)) r k log Hresp Hok)
      by (cbn [py_neg]; f_equal; lia).
    fold lines_list; unfold py_slice_from.
    destruct (k <? 0) eqn:E; [apply Z.ltb_lt in E; lia|].
    rewrite skipn_min by lia; reflexivity.
  - intros lines Hint Hbool.
    unfold get_build_console.
    get_succeeds Hresp Hok.
    unfold bind, lift.
    destruct lines as [|b|z| | |]; try (eexists; reflexivity).
    + exfalso; exact (Hbool b eq_refl).
    + exfalso; exact (Hint z eq_refl).
Qed.

(** X13: when the [get_build_console] tool is given no [lines], it asks
    the client for 50: its text is the heading, which names the job, the
    build and the 50 lines, and the last 50 lines of the console in a code
    block. *)
Theorem console_tool_default_lines d job number r log :
  let self := jenkins_manager JENKINS_URL JENKINS_USERNAME JENKINS_API_TOKEN in
  dict_lookup d "job_name" = Some job -> truthy job = true ->
  dict_lookup d "build_number" = Some number -> truthy number = true ->
  dict_lookup d "lines" = None ->
  upstream (console_request py_repr self job number) = Responded r ->
  is_success r ->
  call_tool upstream str_lower py_repr status_error_message strftime_local
            JENKINS_URL JENKINS_USERNAME JENKINS_API_TOKEN "get_build_console" (PDict d) log
  = ((log ++ [console_request py_repr self job number])%list,
     Ok (text_content
           (("📝 **Console logs - " ++ py_str py_repr job ++ " #" ++ py_str py_repr number
             ++ "** (últimas 50 líneas)" ++ nl ++ nl)
            ++ "```" ++ nl
            ++ Str.join Str.nl (last_lines 50 (Str.split Str.newline (httpx.text r)))
            ++ nl ++ "```"))).
Proof.
  intros self Hjob Htj Hnum Htn Hlines Hresp Hok.
  pose proof (get_build_console_run upstream py_repr status_error_message self job number
                (PInt 50) r (Z.opp 50) log Hresp Hok eq_refl) as Hrun.
  rewrite py_slice_from_neg in Hrun by lia.
  subst self.
  unfold call_tool; erewrite try_except_ok; [reflexivity|].
  tool_body.
  unfold bind at 1, lift at 1; cbn [py_get]; rewrite (dict_get_some _ _ _ _ Hjob).
  unfold bind at 1, lift at 1; rewrite (dict_get_some _ _ _ _ Hnum).
  unfold bind at 1, lift at 1; rewrite (dict_get_none _ _ _ Hlines).
  rewrite Htj, Htn; cbn [andb negb].
  erewrite bind_ok by exact Hrun.
  reflexivity.
Qed.

(** X14: when the [get_job_builds] tool is given no [limit], it asks for
    the range [{0,10}]; and when the job has no builds, its text says so
    and names the job. *)
Theorem builds_tool_default_limit d job r data log :
  let self := jenkins_manager JENKINS_URL JENKINS_USERNAME JENKINS_API_TOKEN in
  dict_lookup d "job_name" = Some job -> truthy job = true ->
  dict_lookup d "limit" = None ->
  upstream (builds_request py_repr self job (PInt 10)) = Responded r ->
  is_success r ->
  httpx.json r = Ok (PDict data) ->
  dict_get data "builds" (PList []) = PList [] ->
  call_tool upstream str_lower py_repr status_error_message strftime_local
            JENKINS_URL JENKINS_USERNAME JENKINS_API_TOKEN "get_job_builds" (PDict d) log
  = ((log ++ [builds_request py_repr self job (PInt 10)])%list,
     Ok (text_content ("📋 No hay builds para el job '" ++ py_str py_repr job ++ "'")))
  /\ req_url (builds_request py_repr self job (PInt 10))
     = jenkins_url self ++ "/job/" ++ py_str py_repr job
       ++ "/api/json?tree=builds[number,url,result,building,duration,timestamp]{0,10}".
Proof.
  intros self Hjob Htj Hlimit Hresp Hok Hjson Hbuilds.
  assert (Hrun : get_job_builds upstream py_repr status_error_message self job (PInt 10) log
                 = ((log ++ [builds_request py_repr self job (PInt 10)])%list, Ok [])).
  { unfold get_job_builds; get_succeeds Hresp Hok.
    unfold bind, lift; rewrite Hjson; cbn [py_get]; rewrite Hbuilds; reflexivity. }
  split; [|reflexivity].
  subst self.
  unfold call_tool; erewrite try_except_ok; [reflexivity|].
  tool_body.
  unfold bind at 1, lift at 1; cbn [py_get]; rewrite (dict_get_some _ _ _ _ Hjob).
  unfold bind at 1, lift at 1; rewrite (dict_get_none _ _ _ Hlimit).
  rewrite Htj; cbn [negb].
  erewrite bind_ok by exact Hrun.
  reflexivity.
Qed.

(** ** More on test_connection *)

Lemma test_connection_success self r info log :
  upstream (root_request self) = Responded r ->
  is_success r ->
  httpx.json r = Ok info ->
  test_connection upstream status_error_message self log
  = ((log ++ [root_request self])%list, Ok info).
Proof.
  intros Hresp Hok Hjson; unfold test_connection.
  erewrite try_except_ok; [reflexivity|].
  get_succeeds Hresp Hok.
  unfold lift; rewrite Hjson; reflexivity.
Qed.

Lemma test_connection_timeout self m log :
  upstream (root_request self) = Failed (ConnectTimeout m) ->
  test_connection upstream status_error_message self log
  = ((log ++ [root_request self])%list,
     Raise (PlainException "Timeout de conexión - ¿Estás conectado a la VPN?")).
Proof.
  intro Hfail; unfold test_connection.
  erewrite try_except_raise
    by (erewrite bind_raise by (apply send_failed; exact Hfail); reflexivity).
  reflexivity.
Qed.

(** X15: [test_connection] rewrites the connect timeout and the status
    errors only: every other failure of the transport, and the error of a
    body of a 2xx answer that is not JSON, come out as they were raised. *)
Theorem test_connection_other_errors self log :
  (forall e, upstream (root_request self) = Failed e ->
     (forall m, e <> ConnectTimeout m) ->
     (forall status m, e <> HTTPStatusError status m) ->
     test_connection upstream status_error_message self log
     = ((log ++ [root_request self])%list, Raise e)) /\
  (forall r m, upstream (root_request self) = Responded r ->
     is_success r ->
     httpx.json r = Raise (JSONDecodeError m) ->
     test_connection upstream status_error_message self log
     = ((log ++ [root_request self])%list, Raise (JSONDecodeError m))).
Proof.
  split.
  - intros e Hfail Hct Hst.
    unfold test_connection.
    erewrite try_except_raise
      by (erewrite bind_raise by (apply send_failed; exact Hfail); reflexivity).
    destruct e; try reflexivity.
    + exfalso; exact (Hct _ eq_refl).
    + exfalso; exact (Hst _ _ eq_refl).
  - intros r m Hresp Hok Hjson.
    unfold test_connection.
    erewrite try_except_raise;
      [|get_succeeds Hresp Hok; unfold lift; rewrite Hjson; reflexivity].
    reflexivity.
Qed.

(** ** Malformed entries *)

Lemma map_result_stops {A B : Type} (f : A -> result B) (l1 : list A) bad rest e :
  (forall x, In x l1 -> exists y, f x = Ok y) ->
  f bad = Raise e ->
  map_result f (l1 ++ bad :: rest) = Raise e.
Proof.
  intros Hgood Hbad; induction l1 as [|x l1 IH]; cbn [app map_result].
  - rewrite Hbad; reflexivity.
  - destruct (Hgood x (or_introl eq_refl)) as [y Hy]; rewrite Hy; cbn [rbind].
    rewrite IH by (intros z Hz; apply Hgood; right; exact Hz); reflexivity.
Qed.

Lemma not_dict_no_get (v : pyval) k default :
  (forall d, v <> PDict d) -> py_get v k default = Raise (no_attribute v "get").
Proof. intro H; destruct v; try reflexivity; exfalso; exact (H _ eq_refl). Qed.

(** X16: [get_jobs] and [get_job_builds] return all the records or none:
    when an entry of the upstream list is not a [dict], the call raises the
    [AttributeError] of the first such entry, and the records of the
    entries before it are lost. *)
Theorem listing_fails_on_malformed_entry self job_name limit r data good bad rest log :
  is_success r ->
  httpx.json r = Ok (PDict data) ->
  (forall d, bad <> PDict d) ->
  (upstream (jobs_request self) = Responded r ->
   dict_get data "jobs" (PList []) = PList (map PDict good ++ bad :: rest) ->
   get_jobs upstream status_error_message self log
   = ((log ++ [jobs_request self])%list, Raise (no_attribute bad "get"))) /\
  (upstream (builds_request py_repr self job_name limit) = Responded r ->
   dict_get data "builds" (PList []) = PList (map PDict good ++ bad :: rest) ->
   get_job_builds upstream py_repr status_error_message self job_name limit log
   = ((log ++ [builds_request py_repr self job_name limit])%list,
      Raise (no_attribute bad "get"))).
Proof.
  intros Hok Hjson Hbad; split; intros Hresp Hlist.
  - unfold get_jobs; get_succeeds Hresp Hok.
    unfold bind, lift; rewrite Hjson; cbn [py_get]; rewrite Hlist; cbn [py_iter].
    erewrite map_result_stops; [reflexivity| |].
    + intros x Hx; apply in_map_iff in Hx; destruct Hx as (d & <- & _).
      eexists; reflexivity.
    + unfold job_of_data; rewrite not_dict_no_get by exact Hbad; reflexivity.
  - unfold get_job_builds; get_succeeds Hresp Hok.
    unfold bind, lift; rewrite Hjson; cbn [py_get]; rewrite Hlist; cbn [py_iter].
    erewrite map_result_stops; [reflexivity| |].
    + intros x Hx; apply in_map_iff in Hx; destruct Hx as (d & <- & _).
      eexists; reflexivity.
    + unfold build_of_data; rewrite not_dict_no_get by exact Hbad; reflexivity.
Qed.

(** ** Rendering *)

(** X17: a build whose timestamp is [0] or less is rendered without the
    date formatter, so its text does not depend on the formatter and the
    rendering does not fail; a build with a positive timestamp that the
    formatter rejects makes the rendering raise the error of the
    formatter. *)
Theorem render_build_and_the_formatter number url result building d t :
  (forall l, result <> PList l) ->
  (forall x, result <> PDict x) ->
  let build := JenkinsBuild.mk number url result building (PInt d) (PInt t) in
  (t <= 0 ->
   exists body,
     render_build py_repr strftime_local build = Ok body /\
     forall formatter, render_build py_repr formatter build = Ok body) /\
  (0 < t -> forall e, strftime_local t = Raise e ->
   render_build py_repr strftime_local build = Raise e).
Proof.
  intros Hl Hd build; subst build; unfold render_build.
  cbn [JenkinsBuild.number JenkinsBuild.url JenkinsBuild.result JenkinsBuild.building
       JenkinsBuild.duration JenkinsBuild.timestamp py_gt0 py_floordiv int_value].
  assert (Hemoji : exists emoji,
            table_get build_status_emoji (Some "🔄") result "❓" = Ok emoji).
  { destruct result; try (eexists; reflexivity).
    - exfalso; exact (Hl _ eq_refl).
    - exfalso; exact (Hd _ eq_refl). }
  destruct Hemoji as [emoji ->]; cbn [rbind].
  split.
  - intro Ht; apply Z.ltb_ge in Ht; rewrite Ht.
    destruct (0 <? d); cbn [rbind]; eexists; split; reflexivity.
  - intros Ht e He; apply Z.ltb_lt in Ht; rewrite Ht.
    destruct (0 <? d); cbn [rbind]; rewrite He; reflexivity.
Qed.

(** X18: on a 2xx answer whose body is a JSON object, the
    [test_connection] tool returns the success text with the version of the
    body, or [N/A] when the body has none, and with the URL as it was
    configured. *)
Theorem test_connection_tool_text arguments r data log :
  let self := jenkins_manager JENKINS_URL JENKINS_USERNAME JENKINS_API_TOKEN in
  upstream (root_request self) = Responded r ->
  is_success r ->
  httpx.json r = Ok (PDict data) ->
  call_tool upstream str_lower py_repr status_error_message strftime_local
            JENKINS_URL JENKINS_USERNAME JENKINS_API_TOKEN "test_connection" arguments log
  = ((log ++ [root_request self])%list,
     Ok (text_content
           ("✅ Conexión exitosa con Jenkins" ++ nl
            ++ "🏷️ Versión: "
            ++ py_str py_repr (match dict_lookup data "version" with
                               | Some version => version
                               | None => PStr "N/A"
                               end) ++ nl
            ++ "🔗 URL: " ++ JENKINS_URL))).
Proof.
  intros self Hresp Hok Hjson.
  pose proof (test_connection_success self r (PDict data) log Hresp Hok Hjson) as Hrun.
  subst self.
  unfold call_tool; erewrite try_except_ok; [reflexivity|].
  tool_body.
  erewrite bind_ok by exact Hrun.
  reflexivity.
Qed.

(** ** main *)

(** X19: a failure of the connection test at startup stops [main] before
    the server is entered: it prints the error and returns 1, with the VPN
    line when the message holds [VPN] or [Timeout], as the message of the
    connect timeout does and the message of a 401 does not; and [main]
    returns 0 only when the test, [stdio_server] and [server.run] all
    returned. *)
Theorem main_exit_code stdio_server server_run log :
  let self := jenkins_manager JENKINS_URL JENKINS_USERNAME JENKINS_API_TOKEN in
  let run := main upstream status_error_message JENKINS_URL JENKINS_USERNAME
                  JENKINS_API_TOKEN stdio_server server_run log in
  (forall m, upstream (root_request self) = Failed (ConnectTimeout m) ->
     run = ((log ++ [root_request self])%list,
            (["🔧 Inicializando servidor MCP para Jenkins...";
              "❌ Error del servidor: Timeout de conexión - ¿Estás conectado a la VPN?";
              "💡 Asegúrate de estar conectado a la VPN"], 1))) /\
  (forall r, upstream (root_request self) = Responded r -> httpx.status_code r = 401 ->
     run = ((log ++ [root_request self])%list,
            (["🔧 Inicializando servidor MCP para Jenkins...";
              "❌ Error del servidor: Error de autenticación - Verifica usuario y token"],
             1))) /\
  (snd (snd run) = 0 \/ snd (snd run) = 1) /\
  (snd (snd run) = 0 <->
   exists info log1 log2,
     test_connection upstream status_error_message self log = (log1, Ok info) /\
     stdio_server log1 = (log2, Ok tt) /\
     server_run log2 = (fst run, Ok tt)).
Proof.
  intros self run.
  pose proof (test_connection_timeout self) as Htimeout.
  pose proof (test_connection_status_error upstream status_error_message self) as Hstatus.
  subst run self; unfold main.
  split; [|split; [|split]].
  - intros m H; rewrite (Htimeout m log H); reflexivity.
  - intros r H Hs.
    rewrite (Hstatus r log H) by (unfold is_success; lia).
    rewrite Hs; reflexivity.
  - destruct (test_connection _ _ _ log) as [log1 [info|e]]; [|right; reflexivity].
    destruct (stdio_server log1) as [log2 [[]|e]]; [|right; reflexivity].
    destruct (server_run log2) as [log3 [[]|e]]; [left|right]; reflexivity.
  - destruct (test_connection _ _ _ log) as [log1 [info|e]].
    + destruct (stdio_server log1) as [log2 [[]|e]] eqn:E2.
      * destruct (server_run log2) as [log3 [[]|e]] eqn:E3; cbn [fst snd].
        -- split; [intros _|reflexivity].
           exists info, log1, log2; rewrite E2, E3; repeat split.
        -- split; [discriminate|].
           intros (info' & l1 & l2 & H1 & H2 & H3).
           inversion H1; subst l1; rewrite E2 in H2; inversion H2; subst l2.
           rewrite E3 in H3; discriminate H3.
      * cbn [fst snd]; split; [discriminate|].
        intros (info' & l1 & l2 & H1 & H2 & _).
        inversion H1; subst l1; rewrite E2 in H2; discriminate H2.
    + cbn [fst snd]; split; [discriminate|].
      intros (info' & l1 & l2 & H1 & _); discriminate H1.
Qed.

Lemma append_assoc_str (a b c : string) : (a ++ b) ++ c = a ++ b ++ c.
Proof. induction a as [|x a IH]; cbn; [reflexivity|rewrite IH; reflexivity]. Qed.

(** X20: a job whose color is a string and whose last build is [None] or
    a [dict] is always rendered by the [get_jobs] tool, and the symbol in
    front of it is the one of its color, or the question mark for a color
    that the table does not know; a color that is a list or a [dict] makes
    the rendering raise a [TypeError]. *)
Theorem render_job_status_symbol job :
  (forall c, JenkinsJob.color job = PStr c -> last_build_typed job ->
     exists rest,
       render_job py_repr job
       = Ok (match assoc_str job_status_emoji c with
             | Some symbol => symbol
             | None => "❓"
             end ++ rest)) /\
  (forall c, JenkinsJob.color job = PStr c -> last_build_typed job ->
     (forall known, In known (map fst job_status_emoji) -> c <> known) ->
     exists rest, render_job py_repr job = Ok ("❓" ++ rest)) /\
  ((forall c, (JenkinsJob.color job <> PStr c)) ->
   JenkinsJob.color job <> PNone ->
   (forall b, JenkinsJob.color job <> PBool b) ->
   (forall z, JenkinsJob.color job <> PInt z) ->
   exists msg, render_job py_repr job = Raise (TypeError msg)).
Proof.
  clear upstream str_lower status_error_message strftime_local
        JENKINS_URL JENKINS_USERNAME JENKINS_API_TOKEN.
  assert (Hknown : forall c, JenkinsJob.color job = PStr c -> last_build_typed job ->
            exists rest,
              render_job py_repr job
              = Ok (match assoc_str job_status_emoji c with
                    | Some symbol => symbol
                    | None => "❓"
                    end ++ rest)).
  { intros c Hc Htyped; unfold render_job; rewrite Hc; cbn [table_get rbind].
    destruct Htyped as [H|[d H]]; rewrite H; cbn [truthy].
    - cbn [rbind]; cbv zeta; eexists.
      rewrite append_assoc_str; reflexivity.
    - destruct d; cbn [py_get rbind]; cbv zeta; eexists;
        rewrite append_assoc_str; reflexivity. }
  split; [exact Hknown|split].
  - intros c Hc Htyped Hnew.
    destruct (Hknown c Hc Htyped) as [rest Hrest].
    exists rest; rewrite Hrest.
    assert (Hnone : assoc_str job_status_emoji c = None).
    { cbn [map fst job_status_emoji] in Hnew.
      unfold job_status_emoji; cbn [assoc_str].
      repeat match goal with
             | |- context [String.eqb ?k c] =>
                 rewrite (eqb_false_of_neq k c)
                   by (intro Heq; apply (Hnew k); [cbn [In]; tauto|symmetry; exact Heq])
             end.
      reflexivity. }
    rewrite Hnone; reflexivity.
  - intros Hs Hn Hb Hz; unfold render_job.
    destruct (JenkinsJob.color job) as [|b|z|c| |]; try (eexists; reflexivity).
    + exfalso; apply Hn; reflexivity.
    + exfalso; exact (Hb b eq_refl).
    + exfalso; exact (Hz z eq_refl).
    + exfalso; exact (Hs c eq_refl).
Qed.

(** ** The error text of read_resource *)

Lemma is_ascii_app (a b : string) :
  Base64.is_ascii (a ++ b) = Base64.is_ascii a && Base64.is_ascii b.
Proof.
  induction a as [|c a IH]; cbn; [reflexivity|].
  rewrite IH, andb_assoc; reflexivity.
Qed.

Lemma hex_digit_ascii (k : N) : (k < 16)%N -> Base64.is_ascii (Json.hex_digit k) = true.
Proof.
  intro H.
  assert (Hn : exists n, (n < 16)%nat /\ k = N.of_nat n)
    by (exists (N.to_nat k); split; lia).
  destruct Hn as (n & Hn & ->).
  do 16 (destruct n as [|n]; [reflexivity|]); lia.
Qed.

Lemma u_escape_ascii (n : N) : Base64.is_ascii (Json.u_escape n) = true.
Proof.
  unfold Json.u_escape.
  rewrite !is_ascii_app, !hex_digit_ascii by (apply N.mod_lt; discriminate).
  reflexivity.
Qed.

Lemma escape_char_ascii (c : ascii) :
  (N_of_ascii c < 127)%N -> Base64.is_ascii (Json.escape_char c) = true.
Proof.
  intro H; unfold Json.escape_char.
  repeat match goal with
         | |- context [if ?b then _ else _] => destruct b; [try reflexivity|]
         end;
    try apply u_escape_ascii.
  cbn [Base64.is_ascii]; replace (N_of_ascii c <? 128)%N with true; [reflexivity|].
  symmetry; apply N.ltb_lt; lia.
Qed.

Lemma u_code_point_ascii (cp : N) : Base64.is_ascii (Json.u_code_point cp) = true.
Proof.
  unfold Json.u_code_point; destruct (cp <? 65536)%N;
    [apply u_escape_ascii|rewrite is_ascii_app, !u_escape_ascii; reflexivity].
Qed.

Lemma escape_ascii_is_ascii (s : string) : Base64.is_ascii (Json.escape_ascii s) = true.
Proof.
  remember (String.length s) as n eqn:Hn.
  assert (Hle : (String.length s <= n)%nat) by lia; clear Hn.
  revert s Hle; induction n as [|n IH]; intros s Hle.
  - destruct s; [reflexivity|cbn in Hle; lia].
  - destruct s as [|c t]; [reflexivity|].
    cbn [String.length] in Hle.
    cbn [Json.escape_ascii]; cbv zeta.
    destruct (N_of_ascii c <? 127)%N eqn:E1.
    + rewrite is_ascii_app, escape_char_ascii by (apply N.ltb_lt; exact E1).
      apply IH; lia.
    + destruct (N_of_ascii c <? 128)%N.
      * rewrite is_ascii_app, u_escape_ascii; apply IH; lia.
      * destruct t as [|c1 t1]; [reflexivity|]; cbn [String.length] in Hle.
        destruct (N_of_ascii c <? 224)%N.
        -- rewrite is_ascii_app, u_code_point_ascii; apply IH; lia.
        -- destruct t1 as [|c2 t2]; [reflexivity|]; cbn [String.length] in Hle.
           destruct (N_of_ascii c <? 240)%N.
           ++ rewrite is_ascii_app, u_code_point_ascii; apply IH; lia.
           ++ destruct t2 as [|c3 t3]; [reflexivity|]; cbn [String.length] in Hle.
              rewrite is_ascii_app, u_code_point_ascii; apply IH; lia.
Qed.

Lemma dumps_error_object (m : string) :
  Json.dumps true (PDict [("error", PStr m)])
  = "{" ++ Str.nl ++ "  " ++ Json.dquote ++ "error" ++ Json.dquote ++ ": "
    ++ Json.dquote ++ Json.escape_ascii m ++ Json.dquote ++ Str.nl ++ "}".
Proof.
  unfold Json.dumps; cbn [Json.dumps_at]; unfold Json.encode_str.
  change (Json.escape_ascii "error") with "error".
  rewrite ?append_assoc_str; reflexivity.
Qed.

(** X21: the text that [read_resource] returns for an exception is ASCII
    whatever the message of the exception holds: the characters outside
    ASCII are written as [\u] escapes. *)
Theorem error_payload_is_ascii uri log e :
  snd (read_resource_body upstream status_error_message
                          JENKINS_URL JENKINS_USERNAME JENKINS_API_TOKEN uri log)
  = Raise e ->
  exists payload,
    snd (read_resource upstream status_error_message
                       JENKINS_URL JENKINS_USERNAME JENKINS_API_TOKEN uri log)
    = Ok payload
    /\ Base64.is_ascii payload = true
    /\ payload = "{" ++ Str.nl ++ "  " ++ Json.dquote ++ "error" ++ Json.dquote ++ ": "
                 ++ Json.dquote ++ Json.escape_ascii (str_exn e) ++ Json.dquote
                 ++ Str.nl ++ "}".
Proof.
  intro Hbody.
  unfold read_resource, try_except.
  destruct (read_resource_body _ _ _ _ _ uri log) as [log1 res].
  cbn [snd] in Hbody; subst res.
  unfold read_resource_handler, ret; cbn [snd]; rewrite dumps_error_object.
  eexists; split; [reflexivity|split; [|reflexivity]].
  rewrite !is_ascii_app, escape_ascii_is_ascii; reflexivity.
Qed.

(** ** Names in the path *)

(** X22: the name of the job goes into the path as it is: with a name
    [a/b] the call of [get_job_info] is the call of [get_build_info] for
    the job [a] and the build [b], and the two return the same. *)
Theorem job_name_is_not_escaped self a b log :
  job_info_request py_repr self (PStr (a ++ "/" ++ b))
  = build_info_request py_repr self (PStr a) (PStr b) /\
  get_job_info upstream py_repr status_error_message self (PStr (a ++ "/" ++ b)) log
  = get_build_info upstream py_repr status_error_message self (PStr a) (PStr b) log.
Proof.
  assert (Hurl : jenkins_url self ++ "/job/" ++ py_str py_repr (PStr (a ++ "/" ++ b))
                 ++ "/api/json"
                 = jenkins_url self ++ "/job/" ++ py_str py_repr (PStr a) ++ "/"
                   ++ py_str py_repr (PStr b) ++ "/api/json").
  { cbn [py_str]; rewrite !append_assoc_str; reflexivity. }
  split.
  - unfold job_info_request, build_info_request; rewrite Hurl; reflexivity.
  - unfold get_job_info, get_build_info; rewrite Hurl; reflexivity.
Qed.

(** ** More on the tools *)

(** X23: with [lines = 0] the [get_build_console] tool shows the whole
    console under a heading that announces the last 0 lines. *)
Theorem console_tool_zero_lines d job number r log :
  let self := jenkins_manager JENKINS_URL JENKINS_USERNAME JENKINS_API_TOKEN in
  dict_lookup d "job_name" = Some job -> truthy job = true ->
  dict_lookup d "build_number" = Some number -> truthy number = true ->
  dict_lookup d "lines" = Some (PInt 0) ->
  upstream (console_request py_repr self job number) = Responded r ->
  is_success r ->
  call_tool upstream str_lower py_repr status_error_message strftime_local
            JENKINS_URL JENKINS_USERNAME JENKINS_API_TOKEN "get_build_console" (PDict d) log
  = ((log ++ [console_request py_repr self job number])%list,
     Ok (text_content
           (("📝 **Console logs - " ++ py_str py_repr job ++ " #" ++ py_str py_repr number
             ++ "** (últimas 0 líneas)" ++ nl ++ nl)
            ++ "```" ++ nl ++ httpx.text r ++ nl ++ "```"))).
Proof.
  intros self Hjob Htj Hnum Htn Hlines Hresp Hok.
  pose proof (get_build_console_run upstream py_repr status_error_message self job number
                (PInt 0) r 0 log Hresp Hok eq_refl) as Hrun.
  rewrite py_slice_from_zero, join_split in Hrun.
  subst self.
  unfold call_tool; erewrite try_except_ok; [reflexivity|].
  tool_body.
  unfold bind at 1, lift at 1; cbn [py_get]; rewrite (dict_get_some _ _ _ _ Hjob).
  unfold bind at 1, lift at 1; rewrite (dict_get_some _ _ _ _ Hnum).
  unfold bind at 1, lift at 1; rewrite (dict_get_some _ _ _ _ Hlines).
  rewrite Htj, Htn; cbn [andb negb].
  erewrite bind_ok by exact Hrun.
  reflexivity.
Qed.

Lemma get_job_info_success self job r info log :
  upstream (job_info_request py_repr self job) = Responded r ->
  is_success r ->
  httpx.json r = Ok info ->
  get_job_info upstream py_repr status_error_message self job log
  = ((log ++ [job_info_request py_repr self job])%list, Ok info).
Proof.
  intros Hresp Hok Hjson; unfold get_job_info.
  get_succeeds Hresp Hok.
  unfold lift; rewrite Hjson; reflexivity.
Qed.

(** X24: the [get_job_info] tool renders every answer whose body is a JSON
    object with a [lastBuild] that is missing, [null] or an object, under
    a heading with the name of the job; for a body that is not an object
    it returns the error text of the missing method [get], after the one
    call. *)
Theorem job_info_tool_body d job r info log :
  let self := jenkins_manager JENKINS_URL JENKINS_USERNAME JENKINS_API_TOKEN in
  dict_lookup d "job_name" = Some job -> truthy job = true ->
  upstream (job_info_request py_repr self job) = Responded r ->
  is_success r ->
  httpx.json r = Ok info ->
  let run := call_tool upstream str_lower py_repr status_error_message strftime_local
               JENKINS_URL JENKINS_USERNAME JENKINS_API_TOKEN "get_job_info" (PDict d) log in
  (forall data, info = PDict data ->
     (dict_get data "lastBuild" PNone = PNone \/
      exists last, dict_get data "lastBuild" PNone = PDict last) ->
     exists rest,
       run = ((log ++ [job_info_request py_repr self job])%list,
              Ok (text_content ("🔧 **Job: " ++ py_str py_repr job ++ rest)))) /\
  ((forall data, info <> PDict data) ->
   run = ((log ++ [job_info_request py_repr self job])%list,
          Ok (text_content ("❌ Error: '" ++ type_name info
                            ++ "' object has no attribute 'get'")))).
Proof.
  intros self Hjob Htj Hresp Hok Hjson run.
  pose proof (get_job_info_success self job r info log Hresp Hok Hjson) as Hrun.
  assert (Hbody : call_tool_body upstream str_lower py_repr status_error_message strftime_local
                    JENKINS_URL JENKINS_USERNAME JENKINS_API_TOKEN "get_job_info"
                    (PDict d) log
                  = lift (rbind (render_job_info py_repr job info)
                                (fun result => Ok (text_content result)))
                         (log ++ [job_info_request py_repr self job])%list).
  { subst self; tool_body.
    unfold bind at 1, lift at 1; cbn [py_get]; rewrite (dict_get_some _ _ _ _ Hjob).
    rewrite Htj; cbn [negb].
    erewrite bind_ok by exact Hrun.
    unfold bind, lift, rbind, ret.
    destruct (render_job_info py_repr job info); reflexivity. }
  subst run; unfold call_tool, try_except; rewrite Hbody; unfold lift.
  split.
  - intros data -> Hlast.
    unfold render_job_info; cbn [py_get rbind]; cbv zeta.
    destruct Hlast as [->|[last ->]]; cbn [truthy].
    + cbn [rbind]; eexists; rewrite !append_assoc_str; reflexivity.
    + destruct last; cbn [py_get rbind]; eexists; rewrite !append_assoc_str; reflexivity.
  - intro Hnot.
    destruct info as [| | | | |data]; try reflexivity.
    exfalso; exact (Hnot data eq_refl).
Qed.

End Further.

(** * The theorems at sample inputs *)

Lemma sample_jobs_typed : Forall last_build_typed Sample.jobs.
Proof.
  repeat (constructor; [first [left; reflexivity | right; eexists; reflexivity]|]).
  constructor.
Defined.


Lemma success_200 text json : is_success (httpx.mk_Response 200 text json).
Proof. unfold is_success; cbn; lia. Defined.

Lemma failed_jobs_rule_witness :
  Forall last_build_typed Sample.jobs /\
  exists selected,
    resource_failed_jobs Sample.jobs = Ok selected /\
    tool_failed_jobs Sample.jobs = Ok selected /\
    forall job, In job selected <-> In job Sample.jobs /\ failed_rule job.
Proof.
  split; [exact sample_jobs_typed|].
  destruct (failed_jobs_rule Sample.unreachable ascii_lower Sample.py_repr Sample.status_error_message
              Sample.strftime_local Sample.JENKINS_URL Sample.JENKINS_USERNAME
              Sample.JENKINS_API_TOKEN Sample.jobs) as [_ H].
  destruct (H sample_jobs_typed) as (selected & H1 & H2 & H3 & _).
  exists selected; split; [exact H1|split; [exact H2|exact H3]].
Defined.

Lemma dispatcher_catches_errors_witness :
  call_tool Sample.unreachable ascii_lower Sample.py_repr Sample.status_error_message
            Sample.strftime_local Sample.JENKINS_URL Sample.JENKINS_USERNAME
            Sample.JENKINS_API_TOKEN "test_connection" (PDict []) []
  = ([root_request Sample.manager],
     Ok (text_content ("❌ Error: Timeout de conexión - ¿Estás conectado a la VPN?"
                       ++ vpn_tip))).
Proof.
  destruct (dispatcher_catches_errors Sample.unreachable ascii_lower Sample.py_repr
              Sample.status_error_message Sample.strftime_local Sample.JENKINS_URL
              Sample.JENKINS_USERNAME Sample.JENKINS_API_TOKEN "test_connection" (PDict [])
              "jenkins://jobs" []) as [(payload & Hrun & _ & _ & Herr) _].
  destruct (Herr (PlainException "Timeout de conexión - ¿Estás conectado a la VPN?") eq_refl)
    as [Hpayload _].
  rewrite Hrun, Hpayload; reflexivity.
Defined.

Lemma missing_required_argument_witness :
  exists msg,
    call_tool Sample.unreachable ascii_lower Sample.py_repr Sample.status_error_message
              Sample.strftime_local Sample.JENKINS_URL Sample.JENKINS_USERNAME
              Sample.JENKINS_API_TOKEN "get_job_info" (PDict [("limit", PInt 5)]) []
    = ([], Ok (text_content msg))
    /\ String.prefix "❌ Error: Se requiere" msg = true.
Proof.
  apply (missing_required_argument Sample.unreachable ascii_lower Sample.py_repr
           Sample.status_error_message Sample.strftime_local Sample.JENKINS_URL
           Sample.JENKINS_USERNAME Sample.JENKINS_API_TOKEN
           (types.mk_Tool "get_job_info" "Obtener información detallada de un job"
              (schema [property "job_name" "string" "Nombre del job"] ["job_name"]))
           "job_name" [("limit", PInt 5)] []).
  - right; left; reflexivity.
  - exists [PStr "job_name"]; split; [reflexivity|left; reflexivity].
  - reflexivity.
Defined.

Lemma get_build_console_tail_witness :
  snd (get_build_console (Sample.console_server Sample.console_200) Sample.py_repr
         Sample.status_error_message Sample.manager (PStr "app") (PInt 7) (PInt 50) [])
  = Ok (Str.join Str.nl (Sample.numbered_lines 151 50)).
Proof.
  destruct (get_build_console_tail (Sample.console_server Sample.console_200) Sample.py_repr
              Sample.status_error_message Sample.manager (PStr "app") (PInt 7) 50
              (Sample.console_response Sample.console_200) [] eq_refl
              (success_200 _ _) ltac:(lia)) as (Hrun & _).
  rewrite Hrun; reflexivity.
Defined.

(** C4: at [lines = 0] the slice [lines_list[-lines:]] is the whole list
    and not the last 0 lines: on the text of the two lines [a] and [b] the
    client returns both lines, where the last 0 lines joined are the empty
    text.  The slice also takes the empty piece after a final newline for a
    line: on three lines that end with a newline and with [lines = 2] the
    client returns the last line and the empty piece, not the last two
    lines. *)
Theorem get_build_console_tail_defect :
  let console := "a" ++ Str.nl ++ "b" in
  let terminated := "l1" ++ Str.nl ++ "l2" ++ Str.nl ++ "l3" ++ Str.nl in
  let run text lines :=
    snd (get_build_console (Sample.console_server text) Sample.py_repr
           Sample.status_error_message Sample.manager (PStr "app") (PInt 7) (PInt lines) []) in
  run console 0 = Ok console
  /\ Str.join Str.nl (last_lines 0 (Str.split Str.newline console)) = ""
  /\ run console 0 <> Ok (Str.join Str.nl (last_lines 0 (Str.split Str.newline console)))
  /\ run terminated 2 = Ok ("l3" ++ Str.nl)
  /\ run terminated 2 <> Ok ("l2" ++ Str.nl ++ "l3").
Proof.
  cbv zeta; repeat split; try reflexivity; vm_compute; discriminate.
Qed.

Lemma trigger_build_endpoints_witness :
  trigger_build (Sample.always (Sample.status_response 201)) Sample.py_repr Sample.manager
                (PStr "app") (PDict [("BRANCH", PStr "main")]) []
  = ([parameterized_build_request Sample.py_repr Sample.manager (PStr "app")
        (PDict [("BRANCH", PStr "main")])],
     Ok true).
Proof.
  destruct (trigger_build_endpoints (Sample.always (Sample.status_response 201))
              ascii_lower Sample.py_repr Sample.status_error_message Sample.strftime_local
              Sample.JENKINS_URL Sample.JENKINS_USERNAME Sample.JENKINS_API_TOKEN
              Sample.manager (PStr "app") []) as [H _].
  destruct (H ("BRANCH", PStr "main") []) as (Hlog & _ & _ & Hres).
  destruct (Hres (Sample.status_response 201) eq_refl) as (b & Hb & Hiff).
  rewrite (surjective_pairing (trigger_build _ _ _ _ _ _)), Hlog, Hb.
  rewrite (proj2 Hiff (or_intror eq_refl)); reflexivity.
Defined.


Lemma test_connection_outcomes_witness :
  test_connection Sample.unreachable Sample.status_error_message Sample.manager []
  = ([root_request Sample.manager],
     Raise (PlainException "Timeout de conexión - ¿Estás conectado a la VPN?"))
  /\ test_connection (Sample.always (Sample.status_response 401))
                     Sample.status_error_message Sample.manager []
     = ([root_request Sample.manager],
        Raise (PlainException "Error de autenticación - Verifica usuario y token"))
  /\ test_connection (Sample.always (Sample.status_response 403))
                     Sample.status_error_message Sample.manager []
     = ([root_request Sample.manager],
        Raise (PlainException "Sin permisos - Verifica los permisos del usuario"))
  /\ test_connection (Sample.always (Sample.status_response 502))
                     Sample.status_error_message Sample.manager []
     = ([root_request Sample.manager], Raise (PlainException "Error HTTP 502"))
  /\ test_connection (Sample.always Sample.info_response)
                     Sample.status_error_message Sample.manager []
     = ([root_request Sample.manager], Ok Sample.info).
Proof.
  split; [|split; [|split; [|split]]].
  - destruct (test_connection_outcomes Sample.unreachable Sample.status_error_message
                Sample.manager []) as (H & _).
    exact (proj1 (H "timed out" eq_refl)).
  - destruct (test_connection_outcomes (Sample.always (Sample.status_response 401))
                Sample.status_error_message Sample.manager []) as (_ & H & _).
    exact (H _ eq_refl eq_refl).
  - destruct (test_connection_outcomes (Sample.always (Sample.status_response 403))
                Sample.status_error_message Sample.manager []) as (_ & _ & H & _).
    exact (H _ eq_refl eq_refl).
  - destruct (test_connection_outcomes (Sample.always (Sample.status_response 502))
                Sample.status_error_message Sample.manager []) as (_ & _ & _ & H & _).
    refine (H _ eq_refl _ _ _); unfold is_success; cbn; lia.
  - destruct (test_connection_outcomes (Sample.always Sample.info_response)
                Sample.status_error_message Sample.manager []) as (_ & _ & _ & _ & H).
    exact (H _ _ eq_refl (success_200 _ _) eq_refl).
Defined.

Lemma get_job_builds_defaults_witness :
  exists first second,
    snd (get_job_builds (Sample.always Sample.builds_response) Sample.py_repr
           Sample.status_error_message Sample.manager (PStr "app") (PInt 10) [])
    = Ok [first; second]
    /\ JenkinsBuild.result second = PStr "UNKNOWN"
    /\ JenkinsBuild.duration second = PInt 0
    /\ JenkinsBuild.timestamp second = PInt 0
    /\ JenkinsBuild.building second = PBool false.
Proof.
  destruct (get_job_builds_defaults (Sample.always Sample.builds_response) Sample.py_repr
              Sample.status_error_message Sample.manager (PStr "app") (PInt 10)
              Sample.builds_response Sample.builds_body Sample.builds_data []
              eq_refl (success_200 _ _) eq_refl eq_refl) as (builds & Hrun & Hall & _).
  inversion Hall as [|d1 first ds1 bs1 _ Hrest]; subst.
  inversion Hrest as [|d2 second ds2 bs2 Hsecond Hnil]; subst.
  inversion Hnil; subst.
  exists first, second; rewrite Hrun.
  destruct Hsecond as (_ & [Hd _] & [Ht _] & [Hb _] & [Hr _] & _).
  repeat split; [apply Hr|apply Hd|apply Ht|apply Hb]; reflexivity.
Defined.

Lemma build_number_zero_is_missing_witness :
  call_tool Sample.unreachable ascii_lower Sample.py_repr Sample.status_error_message
            Sample.strftime_local Sample.JENKINS_URL Sample.JENKINS_USERNAME
            Sample.JENKINS_API_TOKEN "get_build_console"
            (PDict [("job_name", PStr "app"); ("build_number", PInt 0)]) []
  = ([], Ok (text_content "❌ Error: Se requieren job_name y build_number")).
Proof.
  exact (proj1 (build_number_zero_is_missing Sample.unreachable ascii_lower Sample.py_repr
                  Sample.status_error_message Sample.strftime_local Sample.JENKINS_URL
                  Sample.JENKINS_USERNAME Sample.JENKINS_API_TOKEN
                  [("job_name", PStr "app"); ("build_number", PInt 0)] [] eq_refl)).
Defined.

Lemma get_build_console_zero_lines_witness :
  snd (get_build_console (Sample.console_server Sample.console_200) Sample.py_repr
         Sample.status_error_message Sample.manager (PStr "app") (PInt 7) (PInt 0) [])
  = Ok Sample.console_200.
Proof.
  destruct (get_build_console_zero_lines (Sample.console_server Sample.console_200)
              Sample.py_repr Sample.status_error_message Sample.manager (PStr "app") (PInt 7)
              (Sample.console_response Sample.console_200) [] eq_refl (success_200 _ _))
    as [Hrun _].
  rewrite Hrun; reflexivity.
Defined.

Lemma read_resource_error_counterexample :
  let run := read_resource Sample.unreachable Sample.status_error_message
               Sample.JENKINS_URL Sample.JENKINS_USERNAME Sample.JENKINS_API_TOKEN in
  let body := read_resource_body Sample.unreachable Sample.status_error_message
                Sample.JENKINS_URL Sample.JENKINS_USERNAME Sample.JENKINS_API_TOKEN in
  exists e payload,
    body "jenkins://Timeout" [] = ([], Raise e)
    /\ Str.contains "Timeout" (str_exn e) = true
    /\ run "jenkins://Timeout" [] = ([], Ok payload)
    /\ payload = "{" ++ Str.nl ++ "  " ++ Json.dquote ++ "error" ++ Json.dquote ++ ": "
                 ++ Json.dquote ++ "Recurso no encontrado: jenkins://Timeout" ++ Json.dquote
                 ++ Str.nl ++ "}"
    /\ String.prefix "❌" payload = false
    /\ Str.contains "VPN" payload = false
    /\ Str.contains vpn_tip payload = false.
Proof.
  exists (ValueError "Recurso no encontrado: jenkins://Timeout").
  eexists; cbv zeta.
  split; [reflexivity|]. split; [reflexivity|].
  split; [vm_compute; reflexivity|].
  repeat split; vm_compute; reflexivity.
Qed.

Lemma headers_carry_the_credentials_witness :
  (exists auth_b64,
     JenkinsManager_headers "ci" "token"
     = Ok [("Authorization", "Basic " ++ auth_b64); ("Content-Type", "application/json")]
     /\ Base64Reader.b64decode auth_b64 = Some "ci:token")
  /\ exists e, JenkinsManager_headers "señor" "token" = Raise e.
Proof.
  destruct (headers_carry_the_credentials "ci" "token") as [H _].
  destruct (headers_carry_the_credentials "señor" "token") as [_ H'].
  split.
  - exact (H eq_refl).
  - apply H'; exists "se", (ascii_of_nat 195), (String (ascii_of_nat 177) "or:token").
    split; [reflexivity|vm_compute; discriminate].
Defined.

Lemma get_jobs_defaults_witness :
  exists first second,
    snd (get_jobs (Sample.always Sample.jobs_response) Sample.status_error_message
                  Sample.manager [])
    = Ok [first; second]
    /\ JenkinsJob.name first = PStr "app"
    /\ JenkinsJob.name second = PStr ""
    /\ JenkinsJob.buildable second = PBool false
    /\ JenkinsJob.last_build second = PNone.
Proof.
  destruct (get_jobs_defaults (Sample.always Sample.jobs_response)
              Sample.status_error_message Sample.manager Sample.jobs_response
              [("jobs", PList (map PDict Sample.jobs_data))] Sample.jobs_data []
              eq_refl (success_200 _ _) eq_refl eq_refl) as (jobs & Hrun & Hall & _).
  inversion Hall as [|d1 first ds1 js1 Hfirst Hrest]; subst.
  inversion Hrest as [|d2 second ds2 js2 Hsecond Hnil]; subst.
  inversion Hnil; subst.
  exists first, second; rewrite Hrun.
  destruct Hfirst as ([_ Hn1] & _).
  destruct Hsecond as ([Hn2 _] & _ & _ & [Hb2 _] & [Hl2 _]).
  split; [reflexivity|].
  split; [apply Hn1; reflexivity|].
  split; [apply Hn2; reflexivity|].
  split; [apply Hb2; reflexivity|apply Hl2; reflexivity].
Defined.

Lemma queue_resource_passes_items_witness :
  read_resource (Sample.always Sample.queue_response) Sample.status_error_message
                Sample.JENKINS_URL Sample.JENKINS_USERNAME Sample.JENKINS_API_TOKEN
                "jenkins://queue" []
  = ([queue_request Sample.manager], Ok (Json.dumps false Sample.queue_items))
  /\ read_resource (Sample.always Sample.no_builds_response) Sample.status_error_message
                   Sample.JENKINS_URL Sample.JENKINS_USERNAME Sample.JENKINS_API_TOKEN
                   "jenkins://queue" []
     = ([queue_request Sample.manager], Ok "[]").
Proof.
  split.
  - destruct (queue_resource_passes_items (Sample.always Sample.queue_response)
                Sample.status_error_message Sample.JENKINS_URL Sample.JENKINS_USERNAME
                Sample.JENKINS_API_TOKEN Sample.queue_response
                [("items", Sample.queue_items)] [] eq_refl (success_200 _ _) eq_refl)
      as [H _].
    exact (H _ eq_refl).
  - destruct (queue_resource_passes_items (Sample.always Sample.no_builds_response)
                Sample.status_error_message Sample.JENKINS_URL Sample.JENKINS_USERNAME
                Sample.JENKINS_API_TOKEN Sample.no_builds_response
                [("builds", PList [])] [] eq_refl (success_200 _ _) eq_refl)
      as [_ H].
    exact (H eq_refl).
Defined.

Lemma not_success_404 : ~ is_success (Sample.status_response 404).
Proof. unfold is_success; cbn; lia. Defined.

Lemma reading_methods_raise_on_status_witness :
  get_job_info (Sample.always (Sample.status_response 404)) Sample.py_repr
               Sample.status_error_message Sample.manager (PStr "gone") []
  = ([job_info_request Sample.py_repr Sample.manager (PStr "gone")],
     Raise (HTTPStatusError 404
              (Sample.status_error_message 404
                 (req_url (job_info_request Sample.py_repr Sample.manager (PStr "gone")))))).
Proof.
  destruct (reading_methods_raise_on_status (Sample.always (Sample.status_response 404))
              Sample.py_repr Sample.status_error_message Sample.manager (PStr "gone")
              (PInt 1) (PInt 10) (PInt 50) (Sample.status_response 404) []
              not_success_404) as (_ & H & _).
  exact (H eq_refl).
Defined.

Lemma trigger_build_tool_reports_witness :
  call_tool (Sample.always (Sample.status_response 404)) ascii_lower Sample.py_repr
            Sample.status_error_message Sample.strftime_local Sample.JENKINS_URL
            Sample.JENKINS_USERNAME Sample.JENKINS_API_TOKEN "trigger_build"
            (PDict [("job_name", PStr "gone")]) []
  = ([simple_build_request Sample.py_repr Sample.manager (PStr "gone")],
     Ok (text_content "❌ Error al ejecutar build para 'gone'")).
Proof.
  exact (trigger_build_tool_reports (Sample.always (Sample.status_response 404))
           ascii_lower Sample.py_repr Sample.status_error_message Sample.strftime_local
           Sample.JENKINS_URL Sample.JENKINS_USERNAME Sample.JENKINS_API_TOKEN
           [("job_name", PStr "gone")] (PStr "gone") (Sample.status_response 404) []
           eq_refl eq_refl eq_refl).
Defined.

Lemma falsy_required_argument_witness :
  exists msg,
    call_tool Sample.unreachable ascii_lower Sample.py_repr Sample.status_error_message
              Sample.strftime_local Sample.JENKINS_URL Sample.JENKINS_USERNAME
              Sample.JENKINS_API_TOKEN "trigger_build" (PDict [("job_name", PStr "")]) []
    = ([], Ok (text_content msg))
    /\ String.prefix "❌ Error: Se requiere" msg = true.
Proof.
  apply (falsy_required_argument Sample.unreachable ascii_lower Sample.py_repr
           Sample.status_error_message Sample.strftime_local Sample.JENKINS_URL
           Sample.JENKINS_USERNAME Sample.JENKINS_API_TOKEN
           (types.mk_Tool "trigger_build" "Ejecutar un build de un job"
              (schema [property "job_name" "string" "Nombre del job a ejecutar";
                       property "parameters" "object" "Parámetros del build (opcional)"]
                      ["job_name"]))
           "job_name" [("job_name", PStr "")] (PStr "") []).
  - do 4 right; left; reflexivity.
  - exists [PStr "job_name"]; split; [reflexivity|left; reflexivity].
  - reflexivity.
  - reflexivity.
Defined.

Lemma non_string_filter_witness :
  call_tool Sample.unreachable ascii_lower Sample.py_repr Sample.status_error_message
            Sample.strftime_local Sample.JENKINS_URL Sample.JENKINS_USERNAME
            Sample.JENKINS_API_TOKEN "get_jobs" (PDict [("filter", PInt 3)]) []
  = ([], Ok (text_content "❌ Error: 'int' object has no attribute 'lower'")).
Proof.
  apply (non_string_filter Sample.unreachable ascii_lower Sample.py_repr Sample.status_error_message
           Sample.strftime_local Sample.JENKINS_URL Sample.JENKINS_USERNAME
           Sample.JENKINS_API_TOKEN [("filter", PInt 3)] (PInt 3) []).
  - reflexivity.
  - intros s H; discriminate H.
Defined.

Lemma tools_of_the_catalog_witness :
  call_tool Sample.unreachable ascii_lower Sample.py_repr Sample.status_error_message
            Sample.strftime_local Sample.JENKINS_URL Sample.JENKINS_USERNAME
            Sample.JENKINS_API_TOKEN "delete_job" (PDict []) []
  = ([], Ok (text_content "❌ Herramienta desconocida: delete_job")).
Proof.
  apply (tools_of_the_catalog Sample.unreachable ascii_lower Sample.py_repr Sample.status_error_message
           Sample.strftime_local Sample.JENKINS_URL Sample.JENKINS_USERNAME
           Sample.JENKINS_API_TOKEN "delete_job" (PDict []) []).
  intros tool Hin; unfold list_tools in Hin; cbn [In] in Hin.
  repeat (destruct Hin as [Hin|Hin]; [subst tool; discriminate|]).
  destruct Hin.
Defined.

Lemma resources_of_the_catalog_witness :
  read_resource Sample.unreachable Sample.status_error_message
                Sample.JENKINS_URL Sample.JENKINS_USERNAME Sample.JENKINS_API_TOKEN
                "jenkins://builds" []
  = ([], Ok (Json.dumps true
               (PDict [("error", PStr "Recurso no encontrado: jenkins://builds")]))).
Proof.
  apply (resources_of_the_catalog Sample.unreachable Sample.status_error_message
           Sample.JENKINS_URL Sample.JENKINS_USERNAME Sample.JENKINS_API_TOKEN
           "jenkins://builds" []).
  intros res Hin; unfold list_resources in Hin; cbn [In] in Hin.
  repeat (destruct Hin as [Hin|Hin]; [subst res; discriminate|]).
  destruct Hin.
Defined.

Lemma get_build_console_other_lines_witness :
  let console := "a" ++ Str.nl ++ "b" ++ Str.nl ++ "c" in
  snd (get_build_console (Sample.console_server console) Sample.py_repr
         Sample.status_error_message Sample.manager (PStr "app") (PInt 7) (PInt (-1)) [])
  = Ok ("b" ++ Str.nl ++ "c")
  /\ snd (get_build_console (Sample.console_server console) Sample.py_repr
            Sample.status_error_message Sample.manager (PStr "app") (PInt 7) (PInt 3) [])
     = Ok console.
Proof.
  cbv zeta.
  destruct (get_build_console_other_lines
              (Sample.console_server ("a" ++ Str.nl ++ "b" ++ Str.nl ++ "c"))
              Sample.py_repr Sample.status_error_message Sample.manager (PStr "app") (PInt 7)
              (Sample.console_response ("a" ++ Str.nl ++ "b" ++ Str.nl ++ "c")) []
              eq_refl (success_200 _ _)) as (Hall & Hneg & _).
  split.
  - exact (f_equal snd (Hneg 1 ltac:(lia))).
  - exact (f_equal snd (Hall 3 ltac:(cbn; lia))).
Defined.

Lemma console_tool_default_lines_witness :
  exists heading,
    call_tool (Sample.console_server Sample.console_200) ascii_lower Sample.py_repr
              Sample.status_error_message Sample.strftime_local Sample.JENKINS_URL
              Sample.JENKINS_USERNAME Sample.JENKINS_API_TOKEN "get_build_console"
              (PDict [("job_name", PStr "app"); ("build_number", PInt 7)]) []
    = ([console_request Sample.py_repr Sample.manager (PStr "app") (PInt 7)],
       Ok (text_content
             (heading ++ "```" ++ nl
              ++ Str.join Str.nl (last_lines 50 (Str.split Str.newline Sample.console_200))
              ++ nl ++ "```"))).
Proof.
  eexists.
  exact (console_tool_default_lines (Sample.console_server Sample.console_200)
           ascii_lower Sample.py_repr Sample.status_error_message Sample.strftime_local
           Sample.JENKINS_URL Sample.JENKINS_USERNAME Sample.JENKINS_API_TOKEN
           [("job_name", PStr "app"); ("build_number", PInt 7)] (PStr "app") (PInt 7)
           (Sample.console_response Sample.console_200) []
           eq_refl eq_refl eq_refl eq_refl eq_refl eq_refl (success_200 _ _)).
Defined.

Lemma builds_tool_default_limit_witness :
  call_tool (Sample.always Sample.no_builds_response) ascii_lower Sample.py_repr
            Sample.status_error_message Sample.strftime_local Sample.JENKINS_URL
            Sample.JENKINS_USERNAME Sample.JENKINS_API_TOKEN "get_job_builds"
            (PDict [("job_name", PStr "app")]) []
  = ([builds_request Sample.py_repr Sample.manager (PStr "app") (PInt 10)],
     Ok (text_content "📋 No hay builds para el job 'app'")).
Proof.
  exact (proj1 (builds_tool_default_limit (Sample.always Sample.no_builds_response)
                  ascii_lower Sample.py_repr Sample.status_error_message Sample.strftime_local
                  Sample.JENKINS_URL Sample.JENKINS_USERNAME Sample.JENKINS_API_TOKEN
                  [("job_name", PStr "app")] (PStr "app") Sample.no_builds_response
                  [("builds", PList [])] []
                  eq_refl eq_refl eq_refl eq_refl (success_200 _ _) eq_refl eq_refl)).
Defined.

Lemma test_connection_other_errors_witness :
  test_connection Sample.refusing Sample.status_error_message Sample.manager []
  = ([root_request Sample.manager], Raise (TransportError "All connection attempts failed")).
Proof.
  apply (proj1 (test_connection_other_errors Sample.refusing Sample.status_error_message
                  Sample.manager [])).
  - reflexivity.
  - intros m H; discriminate H.
  - intros status m H; discriminate H.
Defined.

Lemma listing_fails_on_malformed_entry_witness :
  get_jobs (Sample.always Sample.broken_jobs_response) Sample.status_error_message
           Sample.manager []
  = ([jobs_request Sample.manager],
     Raise (AttributeError "'str' object has no attribute 'get'")).
Proof.
  destruct (listing_fails_on_malformed_entry (Sample.always Sample.broken_jobs_response)
              Sample.py_repr Sample.status_error_message Sample.manager (PStr "app")
              (PInt 10) Sample.broken_jobs_response
              [("jobs", PList [PDict [("name", PStr "app")]; PStr "oops"; PDict []])]
              [[("name", PStr "app")]] (PStr "oops") [PDict []] []
              (success_200 _ _) eq_refl) as [H _].
  - intros d Hd; discriminate Hd.
  - exact (H eq_refl eq_refl).
Defined.

Lemma render_build_and_the_formatter_witness :
  exists body,
    render_build Sample.py_repr (fun _ => Raise (ValueError "year out of range"))
                 (JenkinsBuild.mk (PInt 13) (PStr "") PNone (PBool true) (PInt 0) (PInt 0))
    = Ok body.
Proof.
  destruct (render_build_and_the_formatter Sample.py_repr
              (fun _ => Raise (ValueError "year out of range"))
              (PInt 13) (PStr "") PNone (PBool true) 0 0) as [H _].
  - intros l Hl; discriminate Hl.
  - intros x Hx; discriminate Hx.
  - destruct (H ltac:(lia)) as (body & Hbody & _); exists body; exact Hbody.
Defined.

Lemma test_connection_tool_text_witness :
  call_tool (Sample.always Sample.info_response) ascii_lower Sample.py_repr Sample.status_error_message
            Sample.strftime_local Sample.JENKINS_URL Sample.JENKINS_USERNAME
            Sample.JENKINS_API_TOKEN "test_connection" (PDict []) []
  = ([root_request Sample.manager],
     Ok (text_content ("✅ Conexión exitosa con Jenkins" ++ nl ++ "🏷️ Versión: 2.440.1" ++ nl
                       ++ "🔗 URL: https://jenkins.example/"))).
Proof.
  exact (test_connection_tool_text (Sample.always Sample.info_response) ascii_lower Sample.py_repr
           Sample.status_error_message Sample.strftime_local Sample.JENKINS_URL
           Sample.JENKINS_USERNAME Sample.JENKINS_API_TOKEN (PDict [])
           Sample.info_response [("version", PStr "2.440.1")] []
           eq_refl (success_200 _ _) eq_refl).
Defined.

Lemma main_exit_code_witness :
  main Sample.unreachable Sample.status_error_message Sample.JENKINS_URL
       Sample.JENKINS_USERNAME Sample.JENKINS_API_TOKEN (ret tt) (ret tt) []
  = ([root_request Sample.manager],
     (["🔧 Inicializando servidor MCP para Jenkins...";
       "❌ Error del servidor: Timeout de conexión - ¿Estás conectado a la VPN?";
       "💡 Asegúrate de estar conectado a la VPN"], 1)).
Proof.
  destruct (main_exit_code Sample.unreachable Sample.status_error_message
              Sample.JENKINS_URL Sample.JENKINS_USERNAME Sample.JENKINS_API_TOKEN
              (ret tt) (ret tt) []) as [H _].
  exact (H "timed out" eq_refl).
Defined.

Lemma render_job_status_symbol_witness :
  exists rest,
    render_job Sample.py_repr (Sample.job "app" "aborted" PNone) = Ok ("❓" ++ rest).
Proof.
  destruct (render_job_status_symbol Sample.py_repr (Sample.job "app" "aborted" PNone))
    as (_ & H & _).
  apply (H "aborted" eq_refl (or_introl eq_refl)).
  intros known Hin; cbn in Hin.
  repeat (destruct Hin as [Hin|Hin]; [subst known; discriminate|]).
  destruct Hin.
Defined.

Lemma error_payload_is_ascii_witness :
  exists payload,
    snd (read_resource Sample.unreachable Sample.status_error_message
                       Sample.JENKINS_URL Sample.JENKINS_USERNAME Sample.JENKINS_API_TOKEN
                       "jenkins://compilación" [])
    = Ok payload
    /\ Base64.is_ascii payload = true.
Proof.
  destruct (error_payload_is_ascii Sample.unreachable Sample.status_error_message
              Sample.JENKINS_URL Sample.JENKINS_USERNAME Sample.JENKINS_API_TOKEN
              "jenkins://compilación" []
              (ValueError "Recurso no encontrado: jenkins://compilación") eq_refl)
    as (payload & H1 & H2 & _).
  exists payload; split; assumption.
Defined.

Lemma console_tool_zero_lines_witness :
  exists heading,
    call_tool (Sample.console_server Sample.console_200) ascii_lower Sample.py_repr
              Sample.status_error_message Sample.strftime_local Sample.JENKINS_URL
              Sample.JENKINS_USERNAME Sample.JENKINS_API_TOKEN "get_build_console"
              (PDict [("job_name", PStr "app"); ("build_number", PInt 7); ("lines", PInt 0)])
              []
    = ([console_request Sample.py_repr Sample.manager (PStr "app") (PInt 7)],
       Ok (text_content (heading ++ "```" ++ nl ++ Sample.console_200 ++ nl ++ "```"))).
Proof.
  eexists.
  exact (console_tool_zero_lines (Sample.console_server Sample.console_200)
           ascii_lower Sample.py_repr Sample.status_error_message Sample.strftime_local
           Sample.JENKINS_URL Sample.JENKINS_USERNAME Sample.JENKINS_API_TOKEN
           [("job_name", PStr "app"); ("build_number", PInt 7); ("lines", PInt 0)]
           (PStr "app") (PInt 7) (Sample.console_response Sample.console_200) []
           eq_refl eq_refl eq_refl eq_refl eq_refl eq_refl (success_200 _ _)).
Defined.

Lemma job_info_tool_body_witness :
  exists rest,
    call_tool (Sample.always Sample.job_info_response) ascii_lower Sample.py_repr
              Sample.status_error_message Sample.strftime_local Sample.JENKINS_URL
              Sample.JENKINS_USERNAME Sample.JENKINS_API_TOKEN "get_job_info"
              (PDict [("job_name", PStr "app")]) []
    = ([job_info_request Sample.py_repr Sample.manager (PStr "app")],
       Ok (text_content ("🔧 **Job: app" ++ rest))).
Proof.
  destruct (job_info_tool_body (Sample.always Sample.job_info_response) ascii_lower Sample.py_repr
              Sample.status_error_message Sample.strftime_local Sample.JENKINS_URL
              Sample.JENKINS_USERNAME Sample.JENKINS_API_TOKEN
              [("job_name", PStr "app")] (PStr "app") Sample.job_info_response
              (PDict Sample.job_info_data) []
              eq_refl eq_refl eq_refl (success_200 _ _) eq_refl) as [H _].
  exact (H Sample.job_info_data eq_refl (or_introl eq_refl)).
Defined.
